(** * Bootcamp-Santander: the product catalogue API (store_api.py) and the
    crossfit competition API (workoutapi.py)

    A shallow embedding of the two services.  Both are request handlers
    over a storage engine; the engine, the clock and the identifier
    generator are modelled as an explicit world that every operation
    threads through, and a Python exception is a [Raise] result. *)

From Stdlib Require Import ZArith NArith List String Ascii Floats Bool Lia.
From Stdlib.Strings Require Byte.
From stdpp Require Import gmap strings list fin_maps pretty.

Local Open Scope string_scope.

(** ** Python strings

    A [str] is kept as the bytes of its UTF-8 encoding, so that a
    character is one byte or a leading byte with the continuation bytes
    that follow it; [len] counts characters, [lower] and [in] work on the
    bytes. *)
Module Py.

Definition chars (s : string) : list ascii := list_ascii_of_string s.

(** A byte of the form [10xxxxxx] continues the character that the
    bytes before it started. *)
Definition is_continuation (c : ascii) : bool :=
  let n := N_of_ascii c in ((128 <=? n) && (n <? 192))%N.

(** [len(s)]: the number of characters, one for each byte that starts
    one. *)
Definition len (s : string) : nat :=
  length (List.filter (λ c, negb (is_continuation c)) (chars s)).

(** [c.lower()] on the ASCII letters, every other character unchanged. *)
Definition lower_char (c : ascii) : ascii :=
  let n := N_of_ascii c in
  if ((65 <=? n) && (n <=? 90))%N then ascii_of_N (n + 32) else c.

Definition lower (s : string) : string :=
  string_of_list_ascii (map lower_char (chars s)).

Fixpoint starts_with (p s : list ascii) : bool :=
  match p, s with
  | [], _ => true
  | _ :: _, [] => false
  | c :: p', d :: s' => Ascii.eqb c d && starts_with p' s'
  end.

(** [needle in hay] on character lists. *)
Fixpoint contains (needle hay : list ascii) : bool :=
  starts_with needle hay ||
  match hay with
  | [] => false
  | _ :: hay' => contains needle hay'
  end.

(** [needle in hay] *)
Definition str_in (needle hay : string) : bool :=
  contains (chars needle) (chars hay).

(** A field of a partial update ([exclude_unset=True]): left out of the
    request, sent as [null], or given. *)
Inductive supplied (A : Type) :=
  | Unset
  | Null
  | Given (a : A).
Arguments Unset {A}.
Arguments Null {A}.
Arguments Given {A} a.

End Py.

(** ** bson.ObjectId

    An ObjectId wraps the bytes of the id.  [ObjectId()] generates twelve;
    [str] renders the bytes as lower-case hexadecimal digits;
    [ObjectId(s)] takes a string of 24 characters and keeps the bytes that
    [bytes.fromhex] reads from it, which are twelve when the characters are
    24 hexadecimal digits and fewer when some of them are white space; and
    [ObjectId.is_valid] says whether that reading succeeds. *)
Module Bson.

Definition ObjectId := list Byte.byte.

#[global] Instance byte_eq_dec : EqDecision Byte.byte := Byte.byte_eq_dec.

Definition hex_char (d : N) : ascii :=
  if (d <? 10)%N then ascii_of_N (48 + d) else ascii_of_N (87 + d).

(** [binascii.hexlify] *)
Definition hexlify (bytes : list Byte.byte) : list ascii :=
  flat_map (λ b, [hex_char (Byte.to_N b / 16); hex_char (Byte.to_N b mod 16)])
    bytes.

(** [str(oid)] *)
Definition oid_str (o : ObjectId) : string := string_of_list_ascii (hexlify o).

Definition hex_val (c : ascii) : option N :=
  let n := N_of_ascii c in
  if ((48 <=? n) && (n <=? 57))%N then Some (n - 48)%N
  else if ((97 <=? n) && (n <=? 102))%N then Some (n - 87)%N
  else if ((65 <=? n) && (n <=? 70))%N then Some (n - 55)%N
  else None.

(** The white space of ASCII: the space and the characters from tab to
    carriage return. *)
Definition is_space (c : ascii) : bool :=
  let n := N_of_ascii c in ((n =? 32) || ((9 <=? n) && (n <=? 13)))%N.

Definition byte_of (n : N) : Byte.byte := default Byte.x00 (Byte.of_N n).

(** [bytes.fromhex(s)]: white space is skipped before each byte, and a byte
    is two hexadecimal digits of either case side by side; [None] stands
    for [ValueError]. *)
Fixpoint fromhex (s : list ascii) : option (list Byte.byte) :=
  match s with
  | [] => Some []
  | c :: s' =>
      if is_space c then fromhex s'
      else
        match s' with
        | [] => None
        | d :: s'' =>
            match hex_val c, hex_val d with
            | Some hi, Some lo =>
                match fromhex s'' with
                | Some bytes => Some (byte_of (16 * hi + lo) :: bytes)
                | None => None
                end
            | _, _ => None
            end
        end
  end.

(** [ObjectId(s)] for a [str] argument; [None] stands for [InvalidId]. *)
Definition oid_parse (s : string) : option ObjectId :=
  if Nat.eqb (Py.len s) 24 then fromhex (Py.chars s) else None.

(** [ObjectId.is_valid(s)] *)
Definition is_valid (s : string) : bool :=
  match oid_parse s with Some _ => true | None => false end.

(** The [k] low bytes of a number, most significant first. *)
Fixpoint big_endian (k : nat) (n : N) : list Byte.byte :=
  match k with
  | O => []
  | S k' => big_endian k' (n / 256) ++ [byte_of (n mod 256)]
  end.

(** The twelve bytes of a generated ObjectId, given as a number. *)
Definition twelve_bytes (n : N) : ObjectId := big_endian 12 n.
Arguments twelve_bytes : simpl never.

(** Documents hold strings, doubles, dates and nulls in their fields; the
    [_id] is kept beside the fields.  A [datetime] is a count of
    microseconds. *)
Definition datetime := Z.

Inductive value :=
  | BNull
  | BString (s : string)
  | BDouble (x : float)
  | BDate (t : datetime).

(** BSON keeps a date to the millisecond: encoding a [datetime] drops its
    microseconds, and every other value is stored as it is. *)
Definition to_millis (t : datetime) : datetime := (1000 * (t / 1000))%Z.

Definition encode (v : value) : value :=
  match v with
  | BDate t => BDate (to_millis t)
  | _ => v
  end.

End Bson.

(** ** store_api.py *)
Module Store.
Import Py Bson.

(** *** Exceptions and the world *)

Inductive exn :=
  | ProductNotFoundException (msg : string)
  | ProductCreationException (msg : string)
  | ProductUpdateException (msg : string)
  | HTTPException (status_code : nat) (detail : string)
  (* raised by the driver and by the schema library *)
  | DuplicateKeyError (details : string)
  | ValidationError (field : string)
  | TypeError.

(** [str(e)].  The text of a [DuplicateKeyError] is the server's and comes
    with the exception; the wording of the schema library's messages is
    its own and is abbreviated. *)
Definition str_exn (e : exn) : string :=
  match e with
  | ProductNotFoundException msg => msg
  | ProductCreationException msg => msg
  | ProductUpdateException msg => msg
  | HTTPException _ detail => detail
  | DuplicateKeyError details => details
  | ValidationError field => "validation error for ProductInDB: " +:+ field
  | TypeError => "'NoneType' object is not subscriptable"
  end.

Inductive result (A : Type) :=
  | Return (a : A)
  | Raise (e : exn).
Arguments Return {A} a.
Arguments Raise {A} e.

(** A stored document: its [_id] and its other fields. *)
Record document := mkDocument {
  doc_id : ObjectId;
  doc_fields : gmap string value
}.

(** The [products] collection in its natural order, the readings that the
    successive calls of [datetime.utcnow()] give, the twelve bytes that the
    successive calls of [ObjectId()] draw, each given as a number, and the
    text with which the server refuses a write that repeats an [_id]. *)
Record World := mkWorld {
  products : list document;
  clock : nat → datetime;
  clock_reads : nat;
  oid_source : nat → N;
  oid_made : nat;
  write_error : ObjectId → string
}.

Definition with_products (w : World) (ps : list document) : World :=
  {| products := ps; clock := clock w; clock_reads := clock_reads w;
     oid_source := oid_source w; oid_made := oid_made w;
     write_error := write_error w |}.

(** A computation reads and writes the world and returns or raises. *)
Definition M (A : Type) : Type := World → result A * World.

Definition ret {A} (a : A) : M A := λ w, (Return a, w).

Definition raise {A} (e : exn) : M A := λ w, (Raise e, w).

Definition bind {A B} (m : M A) (k : A → M B) : M B :=
  λ w, match m w with
       | (Return a, w') => k a w'
       | (Raise e, w') => (Raise e, w')
       end.

(** [try: m  except Exception as e: handler(e)] *)
Definition try_except {A} (m : M A) (handler : exn → M A) : M A :=
  λ w, match m w with
       | (Return a, w') => (Return a, w')
       | (Raise e, w') => handler e w'
       end.

Definition lift {A} (r : result A) : M A := λ w, (r, w).

Declare Scope py_scope.
Delimit Scope py_scope with py.
Notation "x <- m ;; k" := (bind m (λ x, k))
  (at level 100, m at next level, right associativity) : py_scope.
Local Open Scope py_scope.

(** [datetime.utcnow()] *)
Definition utcnow : M datetime :=
  λ w, (Return (clock w (clock_reads w)),
        {| products := products w; clock := clock w;
           clock_reads := S (clock_reads w);
           oid_source := oid_source w; oid_made := oid_made w;
           write_error := write_error w |}).

(** [ObjectId()] *)
Definition new_ObjectId : M ObjectId :=
  λ w, (Return (twelve_bytes (oid_source w (oid_made w))),
        {| products := products w; clock := clock w;
           clock_reads := clock_reads w;
           oid_source := oid_source w; oid_made := S (oid_made w);
           write_error := write_error w |}).

(** *** The collection *)

(** The filter [{"_id": oid}]: the bytes of the two ids are the same; an
    id of fewer than twelve bytes is the [_id] of no document that the
    driver wrote. *)
Definition has_id (oid : ObjectId) (d : document) : bool :=
  bool_decide (doc_id d = oid).

(** [collection.insert_one(data)]: the driver draws the [_id]; the unique
    index on [_id] refuses one that is already stored. *)
Definition insert_one (data : gmap string value) : M ObjectId :=
  oid <- new_ObjectId ;;
  λ w, if existsb (has_id oid) (products w)
       then (Raise (DuplicateKeyError (write_error w oid)), w)
       else (Return oid,
             with_products w
               (products w ++ [mkDocument oid (encode <$> data)])).

(** [collection.find_one({"_id": oid})] *)
Definition find_one (oid : ObjectId) : M (option document) :=
  λ w, (Return (List.find (has_id oid) (products w)), w).

(** [{"$set": update}] applied to the first document with that [_id]. *)
Fixpoint set_first (oid : ObjectId) (update : gmap string value)
    (ds : list document) : list document :=
  match ds with
  | [] => []
  | d :: ds' =>
      if has_id oid d
      then mkDocument (doc_id d) ((encode <$> update) ∪ doc_fields d) :: ds'
      else d :: set_first oid update ds'
  end.

(** [collection.update_one({"_id": oid}, {"$set": update})], giving
    [matched_count]. *)
Definition update_one (oid : ObjectId) (update : gmap string value) : M nat :=
  λ w, if existsb (has_id oid) (products w)
       then (Return 1, with_products w (set_first oid update (products w)))
       else (Return 0, w).

Fixpoint remove_first (oid : ObjectId) (ds : list document) : list document :=
  match ds with
  | [] => []
  | d :: ds' => if has_id oid d then ds' else d :: remove_first oid ds'
  end.

(** [collection.delete_one({"_id": oid})], giving [deleted_count]. *)
Definition delete_one (oid : ObjectId) : M nat :=
  λ w, if existsb (has_id oid) (products w)
       then (Return 1, with_products w (remove_first oid (products w)))
       else (Return 0, w).

(** One operator against a field's value: a comparison holds of a number
    only.  The operators that [list_products] writes are [$gt] and [$lt]. *)
Definition holds (v : option value) (op : string) (bound : float) : bool :=
  match v with
  | Some (BDouble x) =>
      if String.eqb op "$gt" then PrimFloat.ltb bound x
      else if String.eqb op "$lt" then PrimFloat.ltb x bound
      else false
  | _ => false
  end.

(** A query maps a field to its operators and their bounds, as in
    [{"price": {"$gt": 5000, "$lt": 8000}}]; a document matches when every
    operator of every field holds. *)
Definition matches (q : gmap string (gmap string float)) (d : document) : bool :=
  forallb (λ fc : string * gmap string float,
             forallb (λ ob : string * float,
                        holds (doc_fields d !! fc.1) ob.1 ob.2)
                     (map_to_list fc.2))
          (map_to_list q).

(** [collection.find(q).skip(skip).limit(limit)] read with
    [to_list(length=limit)]; the route keeps [skip] and [limit] from being
    negative. *)
Definition find_all (q : gmap string (gmap string float)) (skip limit : nat)
    : M (list document) :=
  λ w, (Return (take limit (drop skip (List.filter (matches q) (products w)))),
        w).

(** *** Schemas *)

Module ProductCreate.
Record t := mk {
  name : string;
  description : option string;
  price : float;
  category : string
}.
End ProductCreate.

Module ProductUpdate.
Record t := mk {
  name : supplied string;
  description : supplied string;
  price : supplied float;
  category : supplied string;
  updated_at : supplied datetime
}.
End ProductUpdate.

Module ProductInDB.
Record t := mk {
  id : string;
  name : string;
  description : option string;
  price : float;
  category : string;
  created_at : datetime;
  updated_at : datetime
}.
End ProductInDB.

Definition len_between (lo hi : nat) (s : string) : bool :=
  (lo <=? Py.len s)%nat && (Py.len s <=? hi)%nat.

(** The constraints of [ProductBase]: the request bodies that the route
    hands to [create_product]. *)
Definition valid_ProductCreate (p : ProductCreate.t) : bool :=
  len_between 1 100 (ProductCreate.name p)
  && match ProductCreate.description p with
     | Some s => len_between 0 500 s
     | None => true
     end
  && PrimFloat.ltb 0 (ProductCreate.price p)
  && len_between 1 50 (ProductCreate.category p).

Definition opt_string (o : option string) : value :=
  match o with
  | Some s => BString s
  | None => BNull
  end.

(** [product.model_dump()] of a [ProductCreate] *)
Definition model_dump (p : ProductCreate.t) : gmap string value :=
  <["name" := BString (ProductCreate.name p)]>
  (<["description" := opt_string (ProductCreate.description p)]>
  (<["price" := BDouble (ProductCreate.price p)]>
  (<["category" := BString (ProductCreate.category p)]> ∅))).

Definition dump_field {A} (key : string) (inj : A → value) (f : supplied A)
    (m : gmap string value) : gmap string value :=
  match f with
  | Unset => m
  | Null => <[key := BNull]> m
  | Given a => <[key := inj a]> m
  end.

(** [product.model_dump(exclude_unset=True)] of a [ProductUpdate] *)
Definition model_dump_exclude_unset (u : ProductUpdate.t) : gmap string value :=
  dump_field "name" BString (ProductUpdate.name u)
  (dump_field "description" BString (ProductUpdate.description u)
  (dump_field "price" BDouble (ProductUpdate.price u)
  (dump_field "category" BString (ProductUpdate.category u)
  (dump_field "updated_at" BDate (ProductUpdate.updated_at u) ∅)))).

(** [ProductInDB] built from the keys of [product_data]: each field is read
    from the document and checked against its constraint; keys that the
    schema does not declare are ignored. *)
Definition read_str (lo hi : nat) (key : string) (m : gmap string value)
    : result string :=
  match m !! key with
  | Some (BString s) =>
      if len_between lo hi s then Return s else Raise (ValidationError key)
  | _ => Raise (ValidationError key)
  end.

Definition read_opt_str (hi : nat) (key : string) (m : gmap string value)
    : result (option string) :=
  match m !! key with
  | None | Some BNull => Return None
  | Some (BString s) =>
      if len_between 0 hi s then Return (Some s) else Raise (ValidationError key)
  | _ => Raise (ValidationError key)
  end.

Definition read_positive (key : string) (m : gmap string value) : result float :=
  match m !! key with
  | Some (BDouble x) =>
      if PrimFloat.ltb 0 x then Return x else Raise (ValidationError key)
  | _ => Raise (ValidationError key)
  end.

Definition read_datetime (key : string) (m : gmap string value)
    : result datetime :=
  match m !! key with
  | Some (BDate t) => Return t
  | _ => Raise (ValidationError key)
  end.

Definition and_then {A B} (r : result A) (k : A → result B) : result B :=
  match r with
  | Return a => k a
  | Raise e => Raise e
  end.

Definition not_found_msg (product_id : string) : string :=
  "Product with id " +:+ product_id +:+ " not found".

(** *** ProductRepository *)
Module ProductRepository.

(** [_convert_to_product_in_db]: the argument is what [find_one] gave,
    [None] included. *)
Definition _convert_to_product_in_db (product_data : option document)
    : result ProductInDB.t :=
  match product_data with
  | None => Raise TypeError
  | Some d =>
      let id := oid_str (doc_id d) in
      let m := doc_fields d in
      and_then (read_str 1 100 "name" m) (λ name,
      and_then (read_opt_str 500 "description" m) (λ description,
      and_then (read_positive "price" m) (λ price,
      and_then (read_str 1 50 "category" m) (λ category,
      and_then (read_datetime "created_at" m) (λ created_at,
      and_then (read_datetime "updated_at" m) (λ updated_at,
      Return (ProductInDB.mk id name description price category
                created_at updated_at)))))))
  end.

Definition create (product : ProductCreate.t) : M ProductInDB.t :=
  try_except
    (let product_data := model_dump product in
     now1 <- utcnow ;;
     let product_data := <["created_at" := BDate now1]> product_data in
     now2 <- utcnow ;;
     let product_data := <["updated_at" := BDate now2]> product_data in
     inserted_id <- insert_one product_data ;;
     created_product <- find_one inserted_id ;;
     lift (_convert_to_product_in_db created_product))
    (λ e, raise (ProductCreationException
                   ("Error creating product: " +:+ str_exn e))).

(** [if not product] tells [None] from a document: a document found by its
    [_id] holds that key and is never empty. *)
Definition get_by_id (product_id : string) : M ProductInDB.t :=
  match oid_parse product_id with
  | None => raise (ProductNotFoundException "Invalid product ID")
  | Some oid =>
      product <- find_one oid ;;
      match product with
      | None => raise (ProductNotFoundException (not_found_msg product_id))
      | Some _ => lift (_convert_to_product_in_db product)
      end
  end.

Definition get_all (skip limit : nat) (filters : gmap string (gmap string float))
    : M (list ProductInDB.t) :=
  products <- find_all filters skip limit ;;
  lift (fold_right
          (λ product acc,
             and_then (_convert_to_product_in_db (Some product)) (λ p,
             and_then acc (λ ps, Return (p :: ps))))
          (Return []) products).

Definition update (product_id : string) (product : ProductUpdate.t)
    : M ProductInDB.t :=
  match oid_parse product_id with
  | None => raise (ProductNotFoundException "Invalid product ID")
  | Some oid =>
      let update_data := model_dump_exclude_unset product in
      update_data <-
        match update_data !! "updated_at" with
        | None => now <- utcnow ;; ret (<["updated_at" := BDate now]> update_data)
        | Some _ => ret update_data
        end ;;
      matched_count <- update_one oid update_data ;;
      if Nat.eqb matched_count 0
      then raise (ProductNotFoundException (not_found_msg product_id))
      else
        updated_product <- find_one oid ;;
        lift (_convert_to_product_in_db updated_product)
  end.

Definition delete (product_id : string) : M bool :=
  match oid_parse product_id with
  | None => raise (ProductNotFoundException "Invalid product ID")
  | Some oid =>
      deleted_count <- delete_one oid ;;
      ret (0 <? deleted_count)%nat
  end.

End ProductRepository.

(** *** ProductUseCases *)
Module ProductUseCases.

Definition create_product (product : ProductCreate.t) : M ProductInDB.t :=
  ProductRepository.create product.

Definition get_product (product_id : string) : M ProductInDB.t :=
  ProductRepository.get_by_id product_id.

(** The [filters] that [list_products] builds from its two bounds. *)
Definition price_filters (min_price max_price : option float)
    : gmap string (gmap string float) :=
  match min_price, max_price with
  | Some lo, Some hi => <["price" := <["$gt" := lo]> (<["$lt" := hi]> ∅)]> ∅
  | Some lo, None => <["price" := <["$gt" := lo]> ∅]> ∅
  | None, Some hi => <["price" := <["$lt" := hi]> ∅]> ∅
  | None, None => ∅
  end.

Definition list_products (skip limit : nat) (min_price max_price : option float)
    : M (list ProductInDB.t) :=
  let filters := price_filters min_price max_price in
  ProductRepository.get_all skip limit filters.

Definition update_product (product_id : string) (product : ProductUpdate.t)
    : M ProductInDB.t :=
  ProductRepository.update product_id product.

Definition delete_product (product_id : string) : M bool :=
  ProductRepository.delete product_id.

End ProductUseCases.

(** *** The routes of [get_product_controller] *)

(** [except ProductNotFoundException as e: raise HTTPException(404, str(e))];
    any other exception passes through. *)
Definition not_found_to_404 {A} (m : M A) : M A :=
  try_except m
    (λ e, match e with
          | ProductNotFoundException msg => raise (HTTPException 404 msg)
          | _ => raise e
          end).

Module get_product_controller.

Definition create_product (product : ProductCreate.t) : M ProductInDB.t :=
  try_except (ProductUseCases.create_product product)
    (λ e, match e with
          | ProductCreationException msg => raise (HTTPException 400 msg)
          | _ => raise e
          end).

Definition get_product (product_id : string) : M ProductInDB.t :=
  not_found_to_404 (ProductUseCases.get_product product_id).

Definition list_products (skip limit : nat)
    (min_price max_price : option float) : M (list ProductInDB.t) :=
  ProductUseCases.list_products skip limit min_price max_price.

Definition update_product (product_id : string) (product : ProductUpdate.t)
    : M ProductInDB.t :=
  not_found_to_404 (ProductUseCases.update_product product_id product).

Definition delete_product (product_id : string) : M unit :=
  not_found_to_404
    (deleted <- ProductUseCases.delete_product product_id ;;
     if negb deleted
     then raise (HTTPException 404 (not_found_msg product_id))
     else ret tt).

End get_product_controller.

(** What the caller observes once the framework has parsed the request
    against the route's schema: the route's declared status with the value
    it returned, the status and detail of an [HTTPException], or the
    framework's answer to any other exception. *)
Inductive response (A : Type) :=
  | Success (status_code : nat) (body : A)
  | Failure (status_code : nat) (detail : string).
Arguments Success {A} status_code body.
Arguments Failure {A} status_code detail.

Definition respond {A} (status_code : nat) (r : result A) : response A :=
  match r with
  | Return a => Success status_code a
  | Raise (HTTPException code detail) => Failure code detail
  | Raise _ => Failure 500 "Internal Server Error"
  end.

Definition serve {A} (status_code : nat) (m : M A) (w : World)
    : response A * World :=
  (respond status_code (m w).1, (m w).2).

Definition POST_products (product : ProductCreate.t) :=
  serve 201 (get_product_controller.create_product product).
Definition GET_product (product_id : string) :=
  serve 200 (get_product_controller.get_product product_id).
Definition GET_products (skip limit : nat) (min_price max_price : option float) :=
  serve 200 (get_product_controller.list_products skip limit min_price max_price).
Definition PATCH_product (product_id : string) (product : ProductUpdate.t) :=
  serve 200 (get_product_controller.update_product product_id product).
Definition DELETE_product (product_id : string) :=
  serve 204 (get_product_controller.delete_product product_id).

(** The stored fields of the product with that id, if any. *)
Definition stored (w : World) (oid : ObjectId) : option (gmap string value) :=
  doc_fields <$> List.find (has_id oid) (products w).

(** *** The data of [run_tests] *)

Definition test_world : World :=
  {| products := [];
     clock := λ n, (1700000000123456 + 1500000 * Z.of_nat n)%Z;
     clock_reads := 0;
     oid_source := λ n, (N.of_nat n + 0x650000000000000000000001)%N;
     oid_made := 0;
     write_error :=
       λ oid, "E11000 duplicate key error collection: storeapi.products "
              +:+ "index: _id_ dup key: { _id: ObjectId('" +:+ oid_str oid
              +:+ "') }" |}.

Definition test_products : list ProductCreate.t :=
  [ ProductCreate.mk "Product 1" None 100 "Test";
    ProductCreate.mk "Product 2" None 6000 "Test";
    ProductCreate.mk "Product 3" None 7500 "Test";
    ProductCreate.mk "Product 4" None 9000 "Test" ].

(** [for product in products: await usecases.create_product(product)] *)
Fixpoint create_each (ps : list ProductCreate.t) : M unit :=
  match ps with
  | [] => ret tt
  | p :: ps' => _ <- ProductUseCases.create_product p ;; create_each ps'
  end.

(** *** What the properties speak of *)

(** One stored field of the product with that id. *)
Definition stored_field (w : World) (oid : ObjectId) (key : string)
    : option value :=
  match stored w oid with
  | Some fields => fields !! key
  | None => None
  end.

(** The [$set] document that [update] sends: the supplied fields, and the
    reading of the clock under [updated_at] when the caller supplied none. *)
Definition update_document (w : World) (u : ProductUpdate.t) : gmap string value :=
  let update_data := model_dump_exclude_unset u in
  match update_data !! "updated_at" with
  | None => <["updated_at" := BDate (clock w (clock_reads w))]> update_data
  | Some _ => update_data
  end.

(** A price strictly above the lower bound and strictly below the upper
    bound, each bound counting only when given. *)
Definition strictly_within (min_price max_price : option float) (x : float) : bool :=
  match min_price with Some lo => PrimFloat.ltb lo x | None => true end
  && match max_price with Some hi => PrimFloat.ltb x hi | None => true end.

(** The documents a price filter selects: with a bound given, those whose
    price is a number strictly within the bounds; with none, all. *)
Definition selected (min_price max_price : option float) (d : document) : bool :=
  match min_price, max_price with
  | None, None => true
  | _, _ =>
      match doc_fields d !! "price" with
      | Some (BDouble x) => strictly_within min_price max_price x
      | _ => false
      end
  end.

(** The store of [test_usecases] once the four products are created. *)
Definition four_products : World := (create_each test_products test_world).2.

(** The first product of [four_products], and a request that supplies a
    new name and nothing else. *)
Definition first_product_id : string := "650000000000000000000001".
Definition first_product_oid : ObjectId :=
  twelve_bytes 0x650000000000000000000001.
Definition rename_only : ProductUpdate.t :=
  ProductUpdate.mk (Given "Updated Name") Unset Unset Unset Unset.


(** *** Requests in sequence *)

Definition valid_supplied {A} (ok : A → bool) (f : supplied A) : bool :=
  match f with
  | Given a => ok a
  | _ => true
  end.

(** The constraints of [ProductUpdate]; [null] passes for every field. *)
Definition valid_ProductUpdate (u : ProductUpdate.t) : bool :=
  valid_supplied (len_between 1 100) (ProductUpdate.name u)
  && valid_supplied (len_between 0 500) (ProductUpdate.description u)
  && valid_supplied (PrimFloat.ltb 0) (ProductUpdate.price u)
  && valid_supplied (len_between 1 50) (ProductUpdate.category u).

Definition not_null {A} (f : supplied A) : bool :=
  match f with
  | Null => false
  | _ => true
  end.

(** No [null] for a field that [ProductInDB] requires; [description] may
    be [null]. *)
Definition null_free (u : ProductUpdate.t) : bool :=
  not_null (ProductUpdate.name u) && not_null (ProductUpdate.price u)
  && not_null (ProductUpdate.category u)
  && not_null (ProductUpdate.updated_at u).

Definition replace {A} (f : supplied A) (old : A) : A :=
  match f with
  | Given a => a
  | _ => old
  end.

(** The record of a product once a partial update that holds no [null] for
    a required field is applied at the clock reading [now]. *)
Definition updated (now : datetime) (u : ProductUpdate.t) (p : ProductInDB.t)
    : ProductInDB.t :=
  ProductInDB.mk (ProductInDB.id p)
    (replace (ProductUpdate.name u) (ProductInDB.name p))
    (match ProductUpdate.description u with
     | Unset => ProductInDB.description p
     | Null => None
     | Given s => Some s
     end)
    (replace (ProductUpdate.price u) (ProductInDB.price p))
    (replace (ProductUpdate.category u) (ProductInDB.category p))
    (ProductInDB.created_at p)
    (match ProductUpdate.updated_at u with
     | Given t => to_millis t
     | _ => to_millis now
     end).

(** A stored document that [ProductInDB] accepts. *)
Definition readable (d : document) : bool :=
  match ProductRepository._convert_to_product_in_db (Some d) with
  | Return _ => true
  | Raise _ => false
  end.

(** The requests of the five routes, each with the parameters that the
    framework hands to the route. *)
Inductive request :=
  | POST (product : ProductCreate.t)
  | GET (product_id : string)
  | LIST (skip limit : nat) (min_price max_price : option float)
  | PATCH (product_id : string) (product : ProductUpdate.t)
  | DELETE (product_id : string).

(** The world a request leaves. *)
Definition handle (r : request) (w : World) : World :=
  match r with
  | POST product => (POST_products product w).2
  | GET product_id => (GET_product product_id w).2
  | LIST skip limit min_price max_price =>
      (GET_products skip limit min_price max_price w).2
  | PATCH product_id product => (PATCH_product product_id product w).2
  | DELETE product_id => (DELETE_product product_id w).2
  end.

Fixpoint handle_all (rs : list request) (w : World) : World :=
  match rs with
  | [] => w
  | r :: rs' => handle_all rs' (handle r w)
  end.

(** [Query(None, gt=0)] on an optional price bound. *)
Definition valid_bound (bound : option float) : bool :=
  match bound with
  | Some x => PrimFloat.ltb 0 x
  | None => true
  end.

(** Requests whose parameters and bodies pass their schema and hold no
    [null] for a required field; the listing takes [limit] from 1 to 100
    and a [skip] that the driver can send, a 64-bit integer. *)
Definition well_formed (r : request) : bool :=
  match r with
  | POST product => valid_ProductCreate product
  | LIST skip limit min_price max_price =>
      (N.of_nat skip <? 2 ^ 63)%N
      && (1 <=? limit)%nat && (limit <=? 100)%nat
      && valid_bound min_price && valid_bound max_price
  | PATCH _ product => valid_ProductUpdate product && null_free product
  | _ => true
  end.


(** What a supplied field sends in the [$set] document. *)
Definition as_value {A} (inj : A → value) (f : supplied A) : option value :=
  match f with
  | Unset => None
  | Null => Some BNull
  | Given a => Some (inj a)
  end.

(** The store invariant: identifiers are unique and every document is
    readable. *)
Definition unique_ids (w : World) : Prop := NoDup (map doc_id (products w)).

Definition all_readable (w : World) : Prop :=
  Forall (λ d, readable d = true) (products w).


Definition status_of {A} (r : response A) : nat :=
  match r with
  | Success status_code _ => status_code
  | Failure status_code _ => status_code
  end.

(** The status code that a request is answered with. *)
Definition answer (r : request) (w : World) : nat :=
  match r with
  | POST product => status_of (POST_products product w).1
  | GET product_id => status_of (GET_product product_id w).1
  | LIST skip limit min_price max_price =>
      status_of (GET_products skip limit min_price max_price w).1
  | PATCH product_id product => status_of (PATCH_product product_id product w).1
  | DELETE product_id => status_of (DELETE_product product_id w).1
  end.


End Store.

(** ** workoutapi.py *)
Module Workout.
Import Py.

(** *** Tables

    A column holds a value or NULL; the constraints that the models declare
    ([nullable=False], [unique=True], [ForeignKey]) are checked by the
    engine when a statement is flushed. *)

Module CentroTreinamento.
Record t := mk {
  id : Z;
  nome : option string;
  endereco : option string;
  proprietario : option string
}.
End CentroTreinamento.

Module Categoria.
Record t := mk {
  id : Z;
  nome : option string
}.
End Categoria.

Module Atleta.
Record t := mk {
  id : Z;
  nome : option string;
  cpf : option string;
  idade : option Z;
  peso : option Z;
  altura : option Z;
  sexo : option string;
  centro_treinamento_id : option Z;
  categoria_id : option Z
}.
End Atleta.

Inductive sqlvalue :=
  | SNull
  | SInt (n : Z)
  | SText (s : string).

Definition of_int (o : option Z) : sqlvalue :=
  match o with Some n => SInt n | None => SNull end.
Definition of_text (o : option string) : sqlvalue :=
  match o with Some s => SText s | None => SNull end.

Inductive violation :=
  | UniqueViolation (table column : string) (v : sqlvalue)
  | ForeignKeyViolation (table column : string) (v : sqlvalue) (referenced : string)
  | NotNullViolation (table column : string).

(** What depends on the engine behind [DATABASE_URL]: whether it enforces
    the declared foreign keys, how its driver words a violation, and how
    statements and their bound parameters are rendered in an error. *)
Record Engine := mkEngine {
  enforces_foreign_keys : bool;
  wording : violation → string;
  placeholder : string → string;
  render_parameters : list (string * sqlvalue) → string
}.

Record Database := mkDatabase {
  centros_treinamento : list CentroTreinamento.t;
  categorias : list Categoria.t;
  atletas : list Atleta.t
}.

Definition with_atletas (db : Database) (rows : list Atleta.t) : Database :=
  {| centros_treinamento := centros_treinamento db;
     categorias := categorias db; atletas := rows |}.

(** *** sqlalchemy.exc.IntegrityError *)

Record IntegrityError := mkIntegrityError {
  orig : string;
  statement : string;
  parameters : string
}.

Definition newline : string := String (ascii_of_nat 10) EmptyString.

(** [str(e)]: the driver's message, the statement and its parameters.  The
    closing line, a fixed link to the documentation, is left out. *)
Definition str_IntegrityError (e : IntegrityError) : string :=
  orig e +:+ newline +:+ "[SQL: " +:+ statement e +:+ "]" +:+ newline
  +:+ "[parameters: " +:+ parameters e +:+ "]".

Fixpoint join (sep : string) (l : list string) : string :=
  match l with
  | [] => ""
  | [s] => s
  | s :: l' => s +:+ sep +:+ join sep l'
  end.

(** The columns of [atletas] that an INSERT writes, in the order of the
    model's declaration. *)
Definition atleta_columns : list string :=
  ["nome"; "cpf"; "idade"; "peso"; "altura"; "sexo";
   "centro_treinamento_id"; "categoria_id"].

Definition insert_sql (e : Engine) : string :=
  "INSERT INTO atletas (" +:+ join ", " atleta_columns +:+ ") VALUES ("
  +:+ join ", " (map (placeholder e) atleta_columns) +:+ ")".

Definition update_sql (e : Engine) (columns : list string) : string :=
  "UPDATE atletas SET "
  +:+ join ", " (map (λ c, c +:+ "=" +:+ placeholder e c) columns)
  +:+ " WHERE atletas.id = " +:+ placeholder e "atletas_id".

Definition atleta_values (a : Atleta.t) : list (string * sqlvalue) :=
  [("nome", of_text (Atleta.nome a)); ("cpf", of_text (Atleta.cpf a));
   ("idade", of_int (Atleta.idade a)); ("peso", of_int (Atleta.peso a));
   ("altura", of_int (Atleta.altura a)); ("sexo", of_text (Atleta.sexo a));
   ("centro_treinamento_id", of_int (Atleta.centro_treinamento_id a));
   ("categoria_id", of_int (Atleta.categoria_id a))].

(** *** The engine's checks

    A statement is checked on the columns it writes: all of them for an
    INSERT, the changed ones for an UPDATE. *)

Definition is_null (v : sqlvalue) : bool :=
  match v with SNull => true | _ => false end.

(** The columns declared [nullable=False]. *)
Definition not_null_columns : list string :=
  ["nome"; "cpf"; "idade"; "peso"; "altura"; "sexo"].

Definition check_not_null (written : list (string * sqlvalue))
    : option violation :=
  match List.find (λ cv : string * sqlvalue,
                     is_null cv.2 && existsb (String.eqb cv.1) not_null_columns)
                  written with
  | Some cv => Some (NotNullViolation "atletas" cv.1)
  | None => None
  end.

Definition same_text (a b : option string) : bool :=
  match a, b with
  | Some x, Some y => String.eqb x y
  | _, _ => false
  end.

(** The value a statement writes to a column, if it writes the column. *)
Definition written_to (column : string) (written : list (string * sqlvalue))
    : option sqlvalue :=
  snd <$> List.find (λ cv : string * sqlvalue, String.eqb cv.1 column) written.

(** [unique=True] on [cpf]: no other row holds the value written. *)
Definition check_unique_cpf (others : list Atleta.t)
    (written : list (string * sqlvalue)) : option violation :=
  match written_to "cpf" written with
  | Some (SText s) =>
      if existsb (λ b, same_text (Atleta.cpf b) (Some s)) others
      then Some (UniqueViolation "atletas" "cpf" (SText s))
      else None
  | _ => None
  end.

(** A foreign key written must be NULL or the key of a row of the table it
    references. *)
Definition check_reference (column referenced : string) (ids : list Z)
    (written : list (string * sqlvalue)) : option violation :=
  match written_to column written with
  | Some (SInt n) =>
      if existsb (Z.eqb n) ids then None
      else Some (ForeignKeyViolation "atletas" column (SInt n) referenced)
  | _ => None
  end.

Definition check_foreign_keys (e : Engine) (db : Database)
    (written : list (string * sqlvalue)) : option violation :=
  if negb (enforces_foreign_keys e) then None
  else
    match check_reference "centro_treinamento_id" "centros_treinamento"
            (map CentroTreinamento.id (centros_treinamento db)) written with
    | Some v => Some v
    | None =>
        check_reference "categoria_id" "categorias"
          (map Categoria.id (categorias db)) written
    end.

Definition first_violation (e : Engine) (db : Database)
    (others : list Atleta.t) (written : list (string * sqlvalue))
    : option violation :=
  match check_not_null written with
  | Some v => Some v
  | None =>
      match check_unique_cpf others written with
      | Some v => Some v
      | None => check_foreign_keys e db written
      end
  end.

(** The key of a new row as SQLite assigns it to an integer primary key:
    one more than the largest key in the table, as long as that is a
    64-bit integer. *)
Definition next_id (rows : list Atleta.t) : Z :=
  (1 + fold_right Z.max 0 (map Atleta.id rows))%Z.

Definition with_id (n : Z) (a : Atleta.t) : Atleta.t :=
  Atleta.mk n (Atleta.nome a) (Atleta.cpf a) (Atleta.idade a) (Atleta.peso a)
    (Atleta.altura a) (Atleta.sexo a) (Atleta.centro_treinamento_id a)
    (Atleta.categoria_id a).

(** [db.add(row); db.commit()]: the INSERT is flushed and committed, or the
    engine refuses it and nothing is written. *)
Definition commit_insert (e : Engine) (db : Database) (a : Atleta.t)
    : IntegrityError + (Atleta.t * Database) :=
  match first_violation e db (atletas db) (atleta_values a) with
  | Some v =>
      inl (mkIntegrityError (wording e v) (insert_sql e)
             (render_parameters e (atleta_values a)))
  | None =>
      let row := with_id (next_id (atletas db)) a in
      inr (row, with_atletas db (atletas db ++ [row]))
  end.

Definition sqlvalue_eqb (a b : sqlvalue) : bool :=
  match a, b with
  | SNull, SNull => true
  | SInt x, SInt y => Z.eqb x y
  | SText x, SText y => String.eqb x y
  | _, _ => false
  end.

(** The columns whose value the pending object changed: the UPDATE sets
    these and no other. *)
Fixpoint changed (old new : list (string * sqlvalue)) : list (string * sqlvalue) :=
  match old, new with
  | (_, o) :: old', (c, n) :: new' =>
      if sqlvalue_eqb o n then changed old' new' else (c, n) :: changed old' new'
  | _, _ => []
  end.

Fixpoint replace_row (a : Atleta.t) (rows : list Atleta.t) : list Atleta.t :=
  match rows with
  | [] => []
  | b :: rows' =>
      if Z.eqb (Atleta.id b) (Atleta.id a) then a :: rows'
      else b :: replace_row a rows'
  end.

Definition other_rows (a : Atleta.t) (rows : list Atleta.t) : list Atleta.t :=
  List.filter (λ b, negb (Z.eqb (Atleta.id b) (Atleta.id a))) rows.

(** [db.commit()] with a modified row pending: nothing is sent when no
    column changed; otherwise the UPDATE is flushed and committed, or
    refused. *)
Definition commit_update (e : Engine) (db : Database) (old new : Atleta.t)
    : IntegrityError + Database :=
  let sets := changed (atleta_values old) (atleta_values new) in
  match sets with
  | [] => inr db
  | _ =>
      match first_violation e db (other_rows new (atletas db)) sets with
      | Some v =>
          inl (mkIntegrityError (wording e v) (update_sql e (map fst sets))
                 (render_parameters e
                    (sets ++ [("atletas_id", SInt (Atleta.id new))])))
      | None => inr (with_atletas db (replace_row new (atletas db)))
      end
  end.

(** *** The engines

    SQLite is the default of [DATABASE_URL]; it does not enforce foreign
    keys unless a connection asks for it, which this program never does.
    PostgreSQL enforces them. *)

Definition quoted (s : string) : string := "'" +:+ s +:+ "'".

(** [repr] of a bound parameter. *)
Definition repr (v : sqlvalue) : string :=
  match v with
  | SNull => "None"
  | SInt n => pretty n
  | SText s => quoted s
  end.

Definition plain (v : sqlvalue) : string :=
  match v with
  | SNull => "null"
  | SInt n => pretty n
  | SText s => s
  end.

Definition dq : string := String (ascii_of_nat 34) EmptyString.

Definition sqlite_wording (v : violation) : string :=
  "(sqlite3.IntegrityError) " +:+
  match v with
  | UniqueViolation table column _ =>
      "UNIQUE constraint failed: " +:+ table +:+ "." +:+ column
  | ForeignKeyViolation _ _ _ _ => "FOREIGN KEY constraint failed"
  | NotNullViolation table column =>
      "NOT NULL constraint failed: " +:+ table +:+ "." +:+ column
  end.

Definition sqlite : Engine :=
  {| enforces_foreign_keys := false;
     wording := sqlite_wording;
     placeholder := λ _, "?";
     render_parameters :=
       λ ps, "(" +:+ join ", " (map (λ p, repr p.2) ps) +:+ ")" |}.

Definition postgresql_wording (v : violation) : string :=
  match v with
  | UniqueViolation table column x =>
      "(psycopg2.errors.UniqueViolation) duplicate key value violates "
      +:+ "unique constraint "
      +:+ dq +:+ table +:+ "_" +:+ column +:+ "_key" +:+ dq +:+ newline
      +:+ "DETAIL:  Key (" +:+ column +:+ ")=(" +:+ plain x +:+ ") already exists."
  | ForeignKeyViolation table column x referenced =>
      "(psycopg2.errors.ForeignKeyViolation) insert or update on table "
      +:+ dq +:+ table +:+ dq +:+ " violates foreign key constraint "
      +:+ dq +:+ table +:+ "_" +:+ column +:+ "_fkey" +:+ dq +:+ newline
      +:+ "DETAIL:  Key (" +:+ column +:+ ")=(" +:+ plain x
      +:+ ") is not present in table " +:+ dq +:+ referenced +:+ dq +:+ "."
  | NotNullViolation table column =>
      "(psycopg2.errors.NotNullViolation) null value in column "
      +:+ dq +:+ column +:+ dq +:+ " of relation " +:+ dq +:+ table +:+ dq
      +:+ " violates not-null constraint"
  end.

Definition postgresql : Engine :=
  {| enforces_foreign_keys := true;
     wording := postgresql_wording;
     placeholder := λ c, "%(" +:+ c +:+ ")s";
     render_parameters :=
       λ ps, "{"
             +:+ join ", " (map (λ p, quoted p.1 +:+ ": " +:+ repr p.2) ps)
             +:+ "}" |}.

(** *** Schemas *)

Module AtletaCreate.
Record t := mk {
  nome : string;
  cpf : string;
  idade : Z;
  peso : Z;
  altura : Z;
  sexo : string;
  centro_treinamento_id : Z;
  categoria_id : Z
}.
End AtletaCreate.

Module AtletaUpdate.
Record t := mk {
  nome : supplied string;
  idade : supplied Z;
  peso : supplied Z;
  altura : supplied Z;
  sexo : supplied string;
  centro_treinamento_id : supplied Z;
  categoria_id : supplied Z
}.
End AtletaUpdate.

(** An athlete with both relations loaded, as the handlers return it. *)
Module AtletaResponse.
Record t := mk {
  atleta : Atleta.t;
  centro_treinamento : option CentroTreinamento.t;
  categoria : option Categoria.t
}.
End AtletaResponse.

(** [fastapi_pagination.Params] and [Page] *)
Module Params.
Record t := mk { page : nat; size : nat }.
End Params.

Module Page.
Record t := mk {
  items : list AtletaResponse.t;
  total : nat;
  page : nat;
  size : nat
}.
End Page.

(** *** Handlers *)

Inductive outcome (A : Type) :=
  | Ok (a : A)
  | HTTPException (status_code : nat) (detail : string).
Arguments Ok {A} a.
Arguments HTTPException {A} status_code detail.

Definition related {R} (key : R → Z) (rows : list R) (fk : option Z) : option R :=
  match fk with
  | None => None
  | Some n => List.find (λ r, Z.eqb (key r) n) rows
  end.

(** [selectinload] of both relations. *)
Definition load (db : Database) (a : Atleta.t) : AtletaResponse.t :=
  AtletaResponse.mk a
    (related CentroTreinamento.id (centros_treinamento db)
       (Atleta.centro_treinamento_id a))
    (related Categoria.id (categorias db) (Atleta.categoria_id a)).

(** [db.query(Atleta).filter(Atleta.id == atleta_id).first()] *)
Definition first_by_id (db : Database) (atleta_id : Z) : option Atleta.t :=
  List.find (λ a, Z.eqb (Atleta.id a) atleta_id) (atletas db).

(** [Atleta] built from [atleta.dict()]; the key is assigned when the row
    is flushed. *)
Definition new_Atleta (c : AtletaCreate.t) : Atleta.t :=
  Atleta.mk 0 (Some (AtletaCreate.nome c)) (Some (AtletaCreate.cpf c))
    (Some (AtletaCreate.idade c)) (Some (AtletaCreate.peso c))
    (Some (AtletaCreate.altura c)) (Some (AtletaCreate.sexo c))
    (Some (AtletaCreate.centro_treinamento_id c))
    (Some (AtletaCreate.categoria_id c)).

Definition cpf_conflict (cpf_value : string) : string :=
  "Já existe um atleta cadastrado com o cpf: " +:+ cpf_value.

(** The [except IntegrityError as e] block of [create_atleta] and of
    [update_atleta], after [db.rollback()]. *)
Definition on_integrity_error {A} (e : IntegrityError) (cpf_value : string)
    : outcome A :=
  let error_str := Py.lower (str_IntegrityError e) in
  if Py.str_in "cpf" error_str
  then HTTPException 303 (cpf_conflict cpf_value)
  else HTTPException 400 "Erro de integridade dos dados".

(** The handlers' bodies follow, with what they return or raise as an
    [HTTPException]; what the service answers, once the driver has bound
    the parameters and the framework has validated the response, is given
    for SQLite further down. *)

Definition create_atleta (e : Engine) (atleta : AtletaCreate.t) (db : Database)
    : outcome (option AtletaResponse.t) * Database :=
  match commit_insert e db (new_Atleta atleta) with
  | inr (db_atleta, db') =>
      (Ok (load db' <$> first_by_id db' (Atleta.id db_atleta)), db')
  | inl err => (on_integrity_error err (AtletaCreate.cpf atleta), db)
  end.

Definition assign {A} (f : supplied A) (old : option A) : option A :=
  match f with
  | Unset => old
  | Null => None
  | Given a => Some a
  end.

(** [for field, value in update_data.items(): setattr(atleta, field, value)]
    over the fields that [atleta_data.dict(exclude_unset=True)] holds. *)
Definition setattrs (u : AtletaUpdate.t) (a : Atleta.t) : Atleta.t :=
  Atleta.mk (Atleta.id a)
    (assign (AtletaUpdate.nome u) (Atleta.nome a))
    (Atleta.cpf a)
    (assign (AtletaUpdate.idade u) (Atleta.idade a))
    (assign (AtletaUpdate.peso u) (Atleta.peso a))
    (assign (AtletaUpdate.altura u) (Atleta.altura a))
    (assign (AtletaUpdate.sexo u) (Atleta.sexo a))
    (assign (AtletaUpdate.centro_treinamento_id u) (Atleta.centro_treinamento_id a))
    (assign (AtletaUpdate.categoria_id u) (Atleta.categoria_id a)).

(** [str] of the stored value in the conflict message. *)
Definition cpf_text (a : Atleta.t) : string :=
  match Atleta.cpf a with Some s => s | None => "None" end.

Definition update_atleta (e : Engine) (atleta_id : Z)
    (atleta_data : AtletaUpdate.t) (db : Database)
    : outcome (option AtletaResponse.t) * Database :=
  match first_by_id db atleta_id with
  | None => (HTTPException 404 "Atleta não encontrado", db)
  | Some atleta =>
      match commit_update e db atleta (setattrs atleta_data atleta) with
      | inr db' => (Ok (load db' <$> first_by_id db' atleta_id), db')
      | inl err => (on_integrity_error err (cpf_text atleta), db)
      end
  end.

Definition get_atleta (atleta_id : Z) (db : Database)
    : outcome AtletaResponse.t * Database :=
  match first_by_id db atleta_id with
  | None => (HTTPException 404 "Atleta não encontrado", db)
  | Some atleta => (Ok (load db atleta), db)
  end.

Fixpoint remove_row (atleta_id : Z) (rows : list Atleta.t) : list Atleta.t :=
  match rows with
  | [] => []
  | b :: rows' =>
      if Z.eqb (Atleta.id b) atleta_id then rows'
      else b :: remove_row atleta_id rows'
  end.

Definition delete_atleta (atleta_id : Z) (db : Database)
    : outcome unit * Database :=
  match first_by_id db atleta_id with
  | None => (HTTPException 404 "Atleta não encontrado", db)
  | Some _ => (Ok tt, with_atletas db (remove_row atleta_id (atletas db)))
  end.






(** [if nome:] on an optional string: [None] and the empty string are
    false. *)
Definition truthy (o : option string) : bool :=
  match o with
  | Some s => negb (String.eqb s "")
  | None => false
  end.

Definition text_of (o : option string) : string :=
  match o with Some s => s | None => "" end.



(** *** The top level of the module

    Importing the module runs its statements in order.  What matters to
    whether a statement can run is the global names it reads when it is
    executed and the names it binds: a [def] reads the names of its
    decorators, of its defaults and of its annotations, never those of its
    body. *)
Inductive stmt :=
  | Import (names : list string)
  | Assign (target : string) (reads : list string)
  | ClassDef (name : string) (reads : list string)
  | FunctionDef (name : string) (decorators defaults annotations : list string)
  | Expr (reads : list string).

Definition reads (s : stmt) : list string :=
  match s with
  | Import _ => []
  | Assign _ r => r
  | ClassDef _ r => r
  | FunctionDef _ decorators defaults annotations =>
      decorators ++ defaults ++ annotations
  | Expr r => r
  end.

Definition binds (s : stmt) : list string :=
  match s with
  | Import names => names
  | Assign target _ => [target]
  | ClassDef name _ => [name]
  | FunctionDef name _ _ _ => [name]
  | Expr _ => []
  end.

Inductive NameError := name_not_defined (name : string).

(** One statement in a namespace: the first name it reads that is not
    bound raises, otherwise its names are bound. *)
Definition exec (ns : gset string) (s : stmt) : NameError + gset string :=
  match List.find (λ x, negb (bool_decide (x ∈ ns))) (reads s) with
  | Some x => inl (name_not_defined x)
  | None => inr (ns ∪ list_to_set (binds s))
  end.

(** The statements with their first lines; the result is the namespace of
    the loaded module or the line that raised. *)
Fixpoint exec_module (ns : gset string) (body : list (nat * stmt))
    : nat * NameError + gset string :=
  match body with
  | [] => inr ns
  | (line, s) :: body' =>
      match exec ns s with
      | inl e => inl (line, e)
      | inr ns' => exec_module ns' body'
      end
  end.

(** The builtins that the module reads, and the name that the import
    system binds. *)
Definition builtins : gset string :=
  list_to_set ["str"; "int"; "__name__"].

Definition def_get_atletas : stmt :=
  FunctionDef "get_atletas"
    ["router"; "Page"; "AtletaResponse"]
    ["Depends"; "get_db"; "Query"; "Query"; "Depends"]
    ["Session"; "Optional"; "str"; "Optional"; "str"; "Params"].

(** Lines 2 to 186: the imports, the models, the schemas, the application
    and the handlers that precede [get_atletas]. *)
Definition before_get_atletas : list (nat * stmt) :=
  [ (3, Import ["FastAPI"; "APIRouter"; "Depends"; "HTTPException"; "Query";
                "status"]);
    (4, Import ["create_engine"; "Column"; "Integer"; "String"; "ForeignKey"]);
    (5, Import ["sessionmaker"; "Session"; "relationship"; "selectinload"]);
    (6, Import ["declarative_base"]);
    (7, Import ["IntegrityError"]);
    (8, Import ["BaseModel"]);
    (9, Import ["Optional"; "List"]);
    (10, Import ["Page"; "add_pagination"]);
    (11, Import ["paginate"]);
    (12, Import ["os"]);
    (15, Assign "SQLALCHEMY_DATABASE_URL" ["os"]);
    (16, Assign "engine"
           ["create_engine"; "SQLALCHEMY_DATABASE_URL"; "SQLALCHEMY_DATABASE_URL"]);
    (20, Assign "SessionLocal" ["sessionmaker"; "engine"]);
    (21, Assign "Base" ["declarative_base"]);
    (24, FunctionDef "get_db" [] [] []);
    (32, ClassDef "CentroTreinamento"
           ["Base"; "Column"; "Integer"; "Column"; "String"; "Column"; "String";
            "Column"; "String"; "relationship"]);
    (42, ClassDef "Categoria"
           ["Base"; "Column"; "Integer"; "Column"; "String"; "relationship"]);
    (50, ClassDef "Atleta"
           ["Base"; "Column"; "Integer"; "Column"; "String"; "Column"; "String";
            "Column"; "Integer"; "Column"; "Integer"; "Column"; "Integer";
            "Column"; "String"; "Column"; "Integer"; "ForeignKey";
            "Column"; "Integer"; "ForeignKey"; "relationship"; "relationship"]);
    (67, ClassDef "CentroTreinamentoBase"
           ["BaseModel"; "str"; "Optional"; "str"; "Optional"; "str"]);
    (72, ClassDef "CentroTreinamentoCreate" ["CentroTreinamentoBase"]);
    (75, ClassDef "CentroTreinamentoResponse" ["CentroTreinamentoBase"; "int"]);
    (81, ClassDef "CategoriaBase" ["BaseModel"; "str"]);
    (84, ClassDef "CategoriaCreate" ["CategoriaBase"]);
    (87, ClassDef "CategoriaResponse" ["CategoriaBase"; "int"]);
    (93, ClassDef "AtletaBase"
           ["BaseModel"; "str"; "str"; "int"; "int"; "int"; "str"; "int"; "int"]);
    (103, ClassDef "AtletaCreate" ["AtletaBase"]);
    (106, ClassDef "AtletaResponse"
            ["AtletaBase"; "int"; "Optional"; "CentroTreinamentoResponse";
             "Optional"; "CategoriaResponse"]);
    (114, ClassDef "AtletaUpdate"
            ["BaseModel"; "Optional"; "str"; "Optional"; "int"; "Optional"; "int";
             "Optional"; "int"; "Optional"; "str"; "Optional"; "int";
             "Optional"; "int"]);
    (124, Expr ["Base"; "engine"]);
    (127, Assign "app" ["FastAPI"]);
    (134, Assign "router" ["APIRouter"]);
    (137, FunctionDef "integrity_error_handler" ["app"; "IntegrityError"] [] []);
    (161, FunctionDef "get_centros_treinamento"
            ["router"; "List"; "CentroTreinamentoResponse"]
            ["Depends"; "get_db"] ["Session"]);
    (165, FunctionDef "create_centro_treinamento"
            ["router"; "CentroTreinamentoResponse"]
            ["Depends"; "get_db"] ["CentroTreinamentoCreate"; "Session"]);
    (174, FunctionDef "get_categorias"
            ["router"; "List"; "CategoriaResponse"]
            ["Depends"; "get_db"] ["Session"]);
    (178, FunctionDef "create_categoria"
            ["router"; "CategoriaResponse"]
            ["Depends"; "get_db"] ["CategoriaCreate"; "Session"]) ].

(** Lines 207 to 314; the last statement is the test of [__name__], whose
    body runs only when the file is run as a script. *)
Definition after_get_atletas : list (nat * stmt) :=
  [ (207, FunctionDef "get_atleta" ["router"; "AtletaResponse"]
            ["Depends"; "get_db"] ["int"; "Session"]);
    (219, FunctionDef "create_atleta" ["router"; "AtletaResponse"]
            ["Depends"; "get_db"] ["AtletaCreate"; "Session"]);
    (249, FunctionDef "update_atleta" ["router"; "AtletaResponse"]
            ["Depends"; "get_db"] ["int"; "AtletaUpdate"; "Session"]);
    (286, FunctionDef "delete_atleta" ["router"]
            ["Depends"; "get_db"] ["int"; "Session"]);
    (299, Expr ["app"; "router"]);
    (302, Expr ["add_pagination"; "app"]);
    (304, FunctionDef "root" ["app"] [] []);
    (308, FunctionDef "health_check" ["app"] [] []);
    (312, Expr ["__name__"]) ].

(** The file as it stands: its first line is the bare expression
    [workoutapi.py]. *)
Definition workoutapi_py : list (nat * stmt) :=
  (1, Expr ["workoutapi"])
  :: before_get_atletas ++ (187, def_get_atletas) :: after_get_atletas.

(** Every name that some statement of the file binds. *)
Definition bound_names (body : list (nat * stmt)) : gset string :=
  list_to_set (concat (map (λ ls : nat * stmt, binds ls.2) body)).

(** *** What the properties speak of *)

(** A sequence of PUT requests, each on the database the previous one
    left. *)
Fixpoint put_all (e : Engine) (requests : list (Z * AtletaUpdate.t))
    (db : Database) : Database :=
  match requests with
  | [] => db
  | (atleta_id, atleta_data) :: requests' =>
      put_all e requests' (update_atleta e atleta_id atleta_data db).2
  end.

(** What identifies a row and what no update may change. *)
Definition key_of (a : Atleta.t) : Z * option string :=
  (Atleta.id a, Atleta.cpf a).





(** The stored name contains the text, letter case apart. *)
Definition contains_ignoring_case (text : string) (stored_name : option string)
    : bool :=
  match stored_name with
  | Some s => str_in (lower text) (lower s)
  | None => false
  end.

(** The athletes a listing request selects when each filter that is
    neither absent nor empty applies: the name by containment, the cpf by
    equality. *)
Definition selected (nome cpf : option string) (a : Atleta.t) : bool :=
  (if truthy nome then contains_ignoring_case (text_of nome) (Atleta.nome a)
   else true)
  && (if truthy cpf then same_text (Atleta.cpf a) cpf else true).


(** *** Example data *)

Definition one_centro : Database :=
  mkDatabase [CentroTreinamento.mk 1 (Some "CT King") None None]
    [Categoria.mk 1 (Some "Scale")] [].

Definition ana : AtletaCreate.t :=
  AtletaCreate.mk "Ana" "12345678901" 30 60 170 "F" 1 1.

(** A second athlete with Ana's cpf. *)
Definition bia : AtletaCreate.t :=
  AtletaCreate.mk "Bia" "12345678901" 25 55 165 "F" 1 1.

(** An athlete of a training centre that does not exist. *)
Definition eva : AtletaCreate.t :=
  AtletaCreate.mk "Eva" "99999999999" 28 58 168 "F" 99 1.

Definition with_ana : Database := (create_atleta sqlite ana one_centro).2.


(** *** Training centres and categories *)

Module CentroTreinamentoCreate.
Record t := mk {
  nome : string;
  endereco : option string;
  proprietario : option string
}.
End CentroTreinamentoCreate.

Module CategoriaCreate.
Record t := mk { nome : string }.
End CategoriaCreate.







(** The primary key of [atletas] holds of the table. *)
Definition unique_keys (db : Database) : Prop :=
  NoDup (map Atleta.id (atletas db)).

(** No [null] for a column of [atletas] declared [nullable=False]. *)
Definition keeps_required (u : AtletaUpdate.t) : bool :=
  match AtletaUpdate.nome u, AtletaUpdate.idade u, AtletaUpdate.peso u,
        AtletaUpdate.altura u, AtletaUpdate.sexo u with
  | Null, _, _, _, _ | _, Null, _, _, _ | _, _, Null, _, _
  | _, _, _, Null, _ | _, _, _, _, Null => false
  | _, _, _, _, _ => true
  end.

(** No [null] at all, the two foreign keys included. *)
Definition no_null (u : AtletaUpdate.t) : bool :=
  keeps_required u
  && match AtletaUpdate.centro_treinamento_id u, AtletaUpdate.categoria_id u with
     | Null, _ | _, Null => false
     | _, _ => true
     end.

(** *** The service on SQLite

    What the caller observes when [DATABASE_URL] is the default SQLite
    file.  The framework validates the request before the handler runs and
    what the handler returns against [response_model] after it; the driver
    binds the integers of a statement as 64-bit integers and raises
    [OverflowError] for any other; an exception that the handler does not
    catch is answered 500. *)

Inductive reply (A : Type) :=
  | Sent (status_code : nat) (body : A)
  | Refused (status_code : nat) (detail : string)
  | Unprocessable
  | ServerError.
Arguments Sent {A} status_code body.
Arguments Refused {A} status_code detail.
Arguments Unprocessable {A}.
Arguments ServerError {A}.

Definition int64 (n : Z) : bool := ((- 2 ^ 63 <=? n) && (n <? 2 ^ 63))%Z.

(** A parameter that the driver binds. *)
Definition bindable (cv : string * sqlvalue) : bool :=
  match cv.2 with
  | SInt n => int64 n
  | _ => true
  end.

Definition has_value {A} (o : option A) : bool :=
  match o with Some _ => true | None => false end.

(** [CentroTreinamentoResponse], [CategoriaResponse] and [AtletaResponse]:
    a field declared [str] or [int] takes no null; a relation may be
    absent and is validated when present. *)
Definition valid_CentroTreinamentoResponse (c : CentroTreinamento.t) : bool :=
  has_value (CentroTreinamento.nome c).

Definition valid_CategoriaResponse (k : Categoria.t) : bool :=
  has_value (Categoria.nome k).

Definition valid_relation {R} (valid : R → bool) (o : option R) : bool :=
  match o with Some r => valid r | None => true end.

Definition valid_AtletaResponse (r : AtletaResponse.t) : bool :=
  let a := AtletaResponse.atleta r in
  has_value (Atleta.nome a) && has_value (Atleta.cpf a)
  && has_value (Atleta.idade a) && has_value (Atleta.peso a)
  && has_value (Atleta.altura a) && has_value (Atleta.sexo a)
  && has_value (Atleta.centro_treinamento_id a)
  && has_value (Atleta.categoria_id a)
  && valid_relation valid_CentroTreinamentoResponse
       (AtletaResponse.centro_treinamento r)
  && valid_relation valid_CategoriaResponse (AtletaResponse.categoria r).

(** The response to what a handler with [response_model=AtletaResponse]
    returned: [None] does not validate. *)
Definition validated (status_code : nat) (r : option AtletaResponse.t)
    : reply AtletaResponse.t :=
  match r with
  | Some body =>
      if valid_AtletaResponse body then Sent status_code body else ServerError
  | None => ServerError
  end.

Definition respond (status_code : nat) (o : outcome (option AtletaResponse.t))
    : reply AtletaResponse.t :=
  match o with
  | Ok r => validated status_code r
  | HTTPException code detail => Refused code detail
  end.


(** GET /atletas/{atleta_id}: the SELECT binds the key. *)
Definition GET_atleta (atleta_id : Z) (db : Database) : reply AtletaResponse.t :=
  if int64 atleta_id
  then match (get_atleta atleta_id db).1 with
       | Ok r => validated 200 (Some r)
       | HTTPException code detail => Refused code detail
       end
  else ServerError.

(** PUT /atletas/{atleta_id}: the SELECT binds the key, and the UPDATE
    the columns that changed. *)
Definition PUT_atleta (atleta_id : Z) (atleta_data : AtletaUpdate.t)
    (db : Database) : reply AtletaResponse.t * Database :=
  if int64 atleta_id
  then
    match first_by_id db atleta_id with
    | Some atleta =>
        if forallb bindable
             (changed (atleta_values atleta)
                (atleta_values (setattrs atleta_data atleta)))
        then (respond 200 (update_atleta sqlite atleta_id atleta_data db).1,
              (update_atleta sqlite atleta_id atleta_data db).2)
        else (ServerError, db)
    | None =>
        (respond 200 (update_atleta sqlite atleta_id atleta_data db).1,
         (update_atleta sqlite atleta_id atleta_data db).2)
    end
  else (ServerError, db).




(** The tables of training centres and of categories hold a name in every
    row, as [nullable=False] has it. *)
Definition relations_named (db : Database) : bool :=
  forallb valid_CentroTreinamentoResponse (centros_treinamento db)
  && forallb valid_CategoriaResponse (categorias db).


End Workout.

(** * Properties *)

(** ** Strings and ObjectIds *)
Module PyFacts.
Import Py.

Lemma chars_app (a b : string) : chars (a +:+ b) = (chars a ++ chars b)%list.
Proof. induction a as [|c a IH]; simpl; [done|]. by rewrite <- IH. Qed.

Lemma chars_of_list (l : list ascii) : chars (string_of_list_ascii l) = l.
Proof. apply list_ascii_of_string_of_list_ascii. Qed.

(** A text of ASCII characters has as many characters as bytes. *)
Lemma len_ascii (l : list ascii) :
  Forall (λ c, is_continuation c = false) l →
  len (string_of_list_ascii l) = length l.
Proof.
  intros Hl. unfold len. rewrite chars_of_list.
  induction Hl as [|c l Hc _ IH]; simpl; [done|].
  rewrite Hc. simpl. by rewrite IH.
Qed.


Lemma starts_with_app (p s t : list ascii) :
  starts_with p s = true → starts_with p (s ++ t)%list = true.
Proof.
  revert s. induction p as [|c p IH]; intros [|d s]; simpl; try done.
  intros [Hc Hp]%andb_true_iff. rewrite Hc. simpl. by apply IH.
Qed.

Lemma contains_app_l (n s t : list ascii) :
  contains n s = true → contains n (s ++ t)%list = true.
Proof.
  induction s as [|d s IH]; simpl.
  - rewrite orb_false_r. intros H.
    destruct n; [by destruct t|done].
  - intros [H|H]%orb_true_iff; apply orb_true_iff.
    + left. by apply (starts_with_app n (d :: s) t).
    + right. by apply IH.
Qed.

Lemma contains_app_r (n s t : list ascii) :
  contains n t = true → contains n (s ++ t)%list = true.
Proof.
  intros H. induction s as [|d s IH]; simpl; [done|].
  rewrite IH. apply orb_true_r.
Qed.

(** [needle in a + b] as soon as [needle in b]. *)
Lemma str_in_app_r (n a b : string) :
  str_in n b = true → str_in n (a +:+ b) = true.
Proof. unfold str_in. rewrite chars_app. apply contains_app_r. Qed.

Lemma str_in_app_l (n a b : string) :
  str_in n a = true → str_in n (a +:+ b) = true.
Proof. unfold str_in. rewrite chars_app. apply contains_app_l. Qed.

Lemma lower_app (a b : string) : lower (a +:+ b) = lower a +:+ lower b.
Proof.
  unfold lower. rewrite chars_app, map_app.
  generalize (map lower_char (chars a)) as l. intros l.
  induction l as [|c l IH]; simpl; [done|]. by rewrite IH.
Qed.

Lemma filter_ext_bool {A} (f g : A → bool) (l : list A) :
  (∀ x, f x = g x) → List.filter f l = List.filter g l.
Proof. intros H. induction l as [|x l IH]; simpl; [done|]. by rewrite H, IH. Qed.

End PyFacts.

Module BsonFacts.
Import Py Bson PyFacts.

Lemma hex_val_hex_char d : (d < 16)%N → hex_val (hex_char d) = Some d.
Proof.
  intros Hd.
  assert (Hcases : In d (map N.of_nat (seq 0 16))).
  { apply in_map_iff. exists (N.to_nat d). split; [lia|].
    apply in_seq. lia. }
  simpl in Hcases.
  repeat (destruct Hcases as [<-|Hcases]; [reflexivity|]).
  destruct Hcases.
Qed.

Lemma hex_char_plain d :
  (d < 16)%N →
  is_continuation (hex_char d) = false ∧ is_space (hex_char d) = false.
Proof.
  intros Hd.
  assert (Hcases : In d (map N.of_nat (seq 0 16))).
  { apply in_map_iff. exists (N.to_nat d). split; [lia|].
    apply in_seq. lia. }
  simpl in Hcases.
  repeat (destruct Hcases as [<-|Hcases]; [by split|]).
  destruct Hcases.
Qed.

(** A byte is its two hexadecimal digits. *)
Lemma byte_digits (b : Byte.byte) :
  (Byte.to_N b / 16 < 16)%N ∧ (Byte.to_N b mod 16 < 16)%N
  ∧ byte_of (16 * (Byte.to_N b / 16) + Byte.to_N b mod 16) = b.
Proof. destruct b; by vm_compute. Qed.

Lemma hexlify_cons b bytes :
  hexlify (b :: bytes)
  = hex_char (Byte.to_N b / 16) :: hex_char (Byte.to_N b mod 16)
    :: hexlify bytes.
Proof. reflexivity. Qed.

(** [bytes.fromhex] reads back what [hexlify] wrote. *)
Lemma fromhex_hexlify bytes : fromhex (hexlify bytes) = Some bytes.
Proof.
  induction bytes as [|b bytes IH]; [done|].
  destruct (byte_digits b) as (Hhi & Hlo & Hb).
  rewrite hexlify_cons. cbn [fromhex].
  rewrite (proj2 (hex_char_plain _ Hhi)).
  by rewrite !hex_val_hex_char, IH, Hb.
Qed.

Lemma length_hexlify bytes : length (hexlify bytes) = 2 * length bytes.
Proof.
  induction bytes as [|b bytes IH]; [done|].
  rewrite hexlify_cons. cbn [length]. rewrite IH. lia.
Qed.

Lemma hexlify_ascii bytes :
  Forall (λ c, is_continuation c = false) (hexlify bytes).
Proof.
  induction bytes as [|b bytes IH]; [by constructor|].
  destruct (byte_digits b) as (Hhi & Hlo & _).
  rewrite hexlify_cons.
  constructor; [apply (hex_char_plain _ Hhi)|].
  constructor; [apply (hex_char_plain _ Hlo)|done].
Qed.

Lemma len_oid_str (o : ObjectId) : len (oid_str o) = 2 * length o.
Proof.
  unfold oid_str. rewrite len_ascii by apply hexlify_ascii.
  apply length_hexlify.
Qed.

(** [ObjectId(str(oid))] is [oid] for an id of twelve bytes. *)
Lemma oid_parse_oid_str (o : ObjectId) :
  length o = 12 → oid_parse (oid_str o) = Some o.
Proof.
  intros Ho. unfold oid_parse. rewrite len_oid_str, Ho. simpl Nat.eqb.
  cbv iota. unfold oid_str. by rewrite chars_of_list, fromhex_hexlify.
Qed.

Lemma oid_str_not_empty (o : ObjectId) : length o = 12 → oid_str o ≠ "".
Proof.
  intros Ho H. apply (f_equal len) in H. rewrite len_oid_str, Ho in H.
  discriminate.
Qed.

Lemma length_big_endian k n : length (big_endian k n) = k.
Proof.
  revert n. induction k as [|k IH]; intros n; simpl; [done|].
  rewrite length_app, IH. simpl. lia.
Qed.

(** A generated ObjectId is twelve bytes. *)
Lemma length_twelve_bytes n : length (twelve_bytes n) = 12.
Proof. apply length_big_endian. Qed.

End BsonFacts.

(** ** store_api.py *)
Module StoreFacts.
Import Py Bson Store Store.ProductRepository PyFacts BsonFacts.
Local Open Scope py_scope.

(** *** The collection *)

Lemma has_id_true oid d : has_id oid d = true ↔ doc_id d = oid.
Proof. apply bool_decide_eq_true. Qed.

Lemma has_id_false oid d : has_id oid d = false ↔ doc_id d ≠ oid.
Proof. apply bool_decide_eq_false. Qed.

Lemma find_new_document oid data ds :
  existsb (has_id oid) ds = false →
  List.find (has_id oid) (ds ++ [mkDocument oid data])
  = Some (mkDocument oid data).
Proof.
  induction ds as [|d ds IH]; simpl.
  - intros _. unfold has_id. simpl. by rewrite bool_decide_eq_true_2.
  - intros [Hd Hds]%orb_false_iff. rewrite Hd. by apply IH.
Qed.

Lemma find_none_existsb oid ds :
  List.find (has_id oid) ds = None ↔ existsb (has_id oid) ds = false.
Proof.
  induction ds as [|d ds IH]; simpl; [done|].
  destruct (has_id oid d); simpl; [split; discriminate|done].
Qed.

Lemma find_set_first oid update ds :
  List.find (has_id oid) (set_first oid update ds) =
  (λ d, mkDocument (doc_id d) ((encode <$> update) ∪ doc_fields d))
    <$> List.find (has_id oid) ds.
Proof.
  induction ds as [|d ds IH]; simpl; [done|].
  destruct (has_id oid d) eqn:Hd; simpl.
  - unfold has_id in *. simpl. by rewrite Hd.
  - by rewrite Hd.
Qed.


Lemma stored_some_existsb w oid :
  is_Some (stored w oid) ↔ existsb (has_id oid) (products w) = true.
Proof.
  unfold stored. rewrite fmap_is_Some.
  destruct (existsb (has_id oid) (products w)) eqn:H.
  - split; [done|]. intros _.
    destruct (List.find (has_id oid) (products w)) eqn:Hf; [by eexists|].
    apply find_none_existsb in Hf. congruence.
  - apply find_none_existsb in H. rewrite H. split; [by intros [? ?]|done].
Qed.

Lemma stored_none_existsb w oid :
  stored w oid = None ↔ existsb (has_id oid) (products w) = false.
Proof.
  unfold stored. rewrite fmap_None. apply find_none_existsb.
Qed.

(** *** The schema of a stored product *)

Lemma valid_ProductCreate_inv p :
  valid_ProductCreate p = true →
  len_between 1 100 (ProductCreate.name p) = true
  ∧ match ProductCreate.description p with
    | Some s => len_between 0 500 s = true
    | None => True
    end
  ∧ PrimFloat.ltb 0 (ProductCreate.price p) = true
  ∧ len_between 1 50 (ProductCreate.category p) = true.
Proof.
  unfold valid_ProductCreate. rewrite !andb_true_iff.
  intros [[[Hn Hd] Hp] Hc]. repeat split; try done.
  by destruct (ProductCreate.description p).
Qed.

(** The document that [create] writes converts to the record of its
    fields. *)
Lemma convert_created p oid now1 now2 :
  valid_ProductCreate p = true →
  _convert_to_product_in_db
    (Some (mkDocument oid
             (encode <$> <["updated_at" := BDate now2]>
                           (<["created_at" := BDate now1]> (model_dump p)))))
  = Return (ProductInDB.mk (oid_str oid) (ProductCreate.name p)
              (ProductCreate.description p) (ProductCreate.price p)
              (ProductCreate.category p) (to_millis now1) (to_millis now2)).
Proof.
  intros (Hn & Hd & Hp & Hc)%valid_ProductCreate_inv.
  unfold _convert_to_product_in_db, model_dump. cbn [doc_fields doc_id].
  unfold read_str, read_opt_str, read_positive, read_datetime.
  rewrite !lookup_fmap.
  repeat (rewrite lookup_insert_ne by done).
  rewrite !lookup_insert_eq.
  repeat first [rewrite lookup_insert_eq | rewrite lookup_insert_ne by done].
  cbn [fmap option_fmap option_map encode]. rewrite Hn, Hp, Hc. cbn [and_then].
  destruct (ProductCreate.description p) as [s|];
    cbn [opt_string encode and_then].
  - by rewrite Hd.
  - done.
Qed.

(** *** Creation and lookup *)

(** What [create] does when the drawn [_id] is not stored yet. *)
Lemma create_fresh w p :
  valid_ProductCreate p = true →
  stored w (twelve_bytes (oid_source w (oid_made w))) = None →
  let oid := (twelve_bytes (oid_source w (oid_made w))) in
  let now1 := clock w (clock_reads w) in
  let now2 := clock w (S (clock_reads w)) in
  let fields := encode <$> <["updated_at" := BDate now2]>
                             (<["created_at" := BDate now1]> (model_dump p)) in
  create p w =
  (Return (ProductInDB.mk (oid_str oid) (ProductCreate.name p)
             (ProductCreate.description p) (ProductCreate.price p)
             (ProductCreate.category p) (to_millis now1) (to_millis now2)),
   {| products := products w ++ [mkDocument oid fields];
      clock := clock w; clock_reads := S (S (clock_reads w));
      oid_source := oid_source w; oid_made := S (oid_made w);
           write_error := write_error w |}).
Proof.
  intros Hvalid Hfresh%stored_none_existsb. cbv zeta.
  unfold create, try_except, bind, utcnow, insert_one, bind, new_ObjectId,
    find_one, lift, with_products.
  cbn [products clock clock_reads oid_source oid_made].
  rewrite Hfresh.
  cbn [products clock clock_reads oid_source oid_made].
  rewrite find_new_document by done.
  by rewrite convert_created.
Qed.

(** C1. For every valid creation input, when the identifier that the driver
    draws is not stored yet, [create] returns a record whose id is not the
    empty string, and [get_by_id] with that id then returns the same
    record. *)
Theorem create_then_get_by_id (w : World) (product : ProductCreate.t) :
  valid_ProductCreate product = true →
  stored w (twelve_bytes (oid_source w (oid_made w))) = None →
  ∃ created w',
    create product w = (Return created, w')
    ∧ ProductInDB.id created ≠ ""
    ∧ get_by_id (ProductInDB.id created) w' = (Return created, w').
Proof.
  intros Hvalid Hfresh.
  pose proof (create_fresh w product Hvalid Hfresh) as Hcreate.
  cbv zeta in Hcreate. eexists _, _. split; [exact Hcreate|].
  cbn [ProductInDB.id].
  split; [apply oid_str_not_empty, length_twelve_bytes|].
  unfold get_by_id. rewrite oid_parse_oid_str by apply length_twelve_bytes.
  unfold bind, find_one, lift. cbn [products].
  rewrite find_new_document by (by apply stored_none_existsb).
  by rewrite convert_created.
Qed.

Lemma create_then_get_by_id_witness :
  ∃ created w',
    create (ProductCreate.mk "Test Product" (Some "A test product") 100 "Test")
      test_world = (Return created, w')
    ∧ ProductInDB.id created ≠ ""
    ∧ get_by_id (ProductInDB.id created) w' = (Return created, w').
Proof.
  apply (create_then_get_by_id test_world
           (ProductCreate.mk "Test Product" (Some "A test product") 100 "Test"));
    reflexivity.
Defined.

(** *** Queries *)

Lemma matches_spec q d :
  matches q d = true ↔
  ∀ field conds op bound,
    q !! field = Some conds → conds !! op = Some bound →
    holds (doc_fields d !! field) op bound = true.
Proof.
  unfold matches. rewrite forallb_forall. split.
  - intros H field conds op bound Hq Hc.
    specialize (H (field, conds)). rewrite forallb_forall in H.
    apply (H ltac:(apply list_elem_of_In; by apply elem_of_map_to_list)
             (op, bound)).
    apply list_elem_of_In. by apply elem_of_map_to_list.
  - intros H [field conds] Hin%list_elem_of_In%elem_of_map_to_list.
    apply forallb_forall.
    intros [op bound] Hin'%list_elem_of_In%elem_of_map_to_list.
    by apply (H field conds op bound).
Qed.

(** The filter that [list_products] builds selects by strict inequality on
    both ends, in each of its four forms. *)
Lemma matches_price_filters min_price max_price d :
  matches (ProductUseCases.price_filters min_price max_price) d
  = selected min_price max_price d.
Proof.
  apply eq_true_iff_eq. rewrite matches_spec.
  unfold ProductUseCases.price_filters, selected, strictly_within.
  destruct min_price as [lo|], max_price as [hi|].
  - split.
    + intros H.
      pose proof (H "price" _ "$gt" lo ltac:(by simplify_map_eq)
                    ltac:(by simplify_map_eq)) as Hlo.
      pose proof (H "price" _ "$lt" hi ltac:(by simplify_map_eq)
                    ltac:(by simplify_map_eq)) as Hhi.
      unfold holds in *. destruct (doc_fields d !! "price") as [[]|]; try done.
      simpl in *. by rewrite Hlo, Hhi.
    + intros H field conds op bound Hf Hc.
      destruct (decide (field = "price")) as [->|]; simplify_map_eq.
      destruct (doc_fields d !! "price") as [[]|]; try done.
      apply andb_true_iff in H as [Hlo Hhi].
      destruct (decide (op = "$gt")) as [->|]; simplify_map_eq; [done|].
      destruct (decide (op = "$lt")) as [->|]; simplify_map_eq. done.
  - split.
    + intros H.
      pose proof (H "price" _ "$gt" lo ltac:(by simplify_map_eq)
                    ltac:(by simplify_map_eq)) as Hlo.
      unfold holds in *. destruct (doc_fields d !! "price") as [[]|]; try done.
      simpl in *. by rewrite Hlo.
    + intros H field conds op bound Hf Hc.
      destruct (decide (field = "price")) as [->|]; simplify_map_eq.
      destruct (doc_fields d !! "price") as [[]|]; try done.
      apply andb_true_iff in H as [Hlo _].
      destruct (decide (op = "$gt")) as [->|]; simplify_map_eq. done.
  - split.
    + intros H.
      pose proof (H "price" _ "$lt" hi ltac:(by simplify_map_eq)
                    ltac:(by simplify_map_eq)) as Hhi.
      unfold holds in *. destruct (doc_fields d !! "price") as [[]|]; try done.
    + intros H field conds op bound Hf Hc.
      destruct (decide (field = "price")) as [->|]; simplify_map_eq.
      destruct (doc_fields d !! "price") as [[]|]; try done.
      destruct (decide (op = "$lt")) as [->|]; simplify_map_eq. done.
  - split; [done|]. intros _ field conds op bound Hf. simplify_map_eq.
Qed.

Lemma and_then_Return {A B} (r : result A) (k : A → result B) b :
  and_then r k = Return b → ∃ a, r = Return a ∧ k a = Return b.
Proof. destruct r as [a|e]; simpl; [eauto|discriminate]. Qed.

(** A record that a document converts to carries the document's id and
    price. *)
Lemma convert_id_price d p :
  _convert_to_product_in_db (Some d) = Return p →
  ProductInDB.id p = oid_str (doc_id d)
  ∧ doc_fields d !! "price" = Some (BDouble (ProductInDB.price p)).
Proof.
  unfold _convert_to_product_in_db.
  intros (name & _ & H)%and_then_Return.
  apply and_then_Return in H as (description & _ & H).
  apply and_then_Return in H as (price & Hprice & H).
  apply and_then_Return in H as (category & _ & H).
  apply and_then_Return in H as (created_at & _ & H).
  apply and_then_Return in H as (updated_at & _ & H).
  injection H as <-. cbn [ProductInDB.id ProductInDB.price]. split; [done|].
  unfold read_positive in Hprice.
  destruct (doc_fields d !! "price") as [[| |x|]|]; try discriminate.
  destruct (PrimFloat.ltb 0 x); [|discriminate]. by injection Hprice as ->.
Qed.

Lemma convert_each_Return docs ps :
  fold_right
    (λ product acc,
       and_then (_convert_to_product_in_db (Some product)) (λ p,
       and_then acc (λ ps, Return (p :: ps))))
    (Return []) docs = Return ps →
  Forall2 (λ d p, _convert_to_product_in_db (Some d) = Return p) docs ps.
Proof.
  revert ps. induction docs as [|d docs IH]; intros ps; simpl.
  - intros [= <-]. constructor.
  - intros (p & Hp & H)%and_then_Return.
    apply and_then_Return in H as (ps' & Hps' & [= <-]).
    constructor; [done|]. by apply IH.
Qed.

(** [get_all] reads the store and converts, in order, the page of the
    documents that match. *)
Lemma get_all_Return skip limit q w ps w' :
  get_all skip limit q w = (Return ps, w') →
  w' = w
  ∧ Forall2 (λ d p, _convert_to_product_in_db (Some d) = Return p)
      (take limit (drop skip (List.filter (matches q) (products w)))) ps.
Proof.
  unfold get_all, bind, find_all, lift. intros [= H <-]. split; [done|].
  by apply convert_each_Return.
Qed.

(** C5. The price filter has four forms (no bound, lower only, upper only,
    both) and is strict on both ends: whenever the listing returns, it
    returns, in order, the requested page of exactly the stored products
    whose price lies strictly within the given bounds.  In particular, over
    the store holding the products priced 100, 6000, 7500 and 9000, the
    listing with min_price=5000 and max_price=8000 returns exactly the two
    products priced 6000 and 7500. *)
Theorem price_filter_is_strict :
  (∀ lo hi : float,
     ProductUseCases.price_filters None None = ∅
     ∧ ProductUseCases.price_filters (Some lo) None
       = {["price" := {["$gt" := lo]}]}
     ∧ ProductUseCases.price_filters None (Some hi)
       = {["price" := {["$lt" := hi]}]}
     ∧ ProductUseCases.price_filters (Some lo) (Some hi)
       = {["price" := <["$gt" := lo]> {["$lt" := hi]}]})
  ∧ (∀ (w w' : World) (skip limit : nat) (min_price max_price : option float)
       (ps : list ProductInDB.t),
       ProductUseCases.list_products skip limit min_price max_price w
       = (Return ps, w') →
       map ProductInDB.id ps
       = map (λ d, oid_str (doc_id d))
           (take limit (drop skip
              (List.filter (selected min_price max_price) (products w))))
       ∧ Forall (λ p,
           (∀ lo, min_price = Some lo →
                  PrimFloat.ltb lo (ProductInDB.price p) = true)
           ∧ (∀ hi, max_price = Some hi →
                    PrimFloat.ltb (ProductInDB.price p) hi = true)) ps)
  ∧ map (λ d, doc_fields d !! "price") (products four_products)
    = [Some (BDouble 100); Some (BDouble 6000);
       Some (BDouble 7500); Some (BDouble 9000)]
  ∧ (∃ p2 p3,
       (ProductUseCases.list_products 0 10 (Some 5000%float) (Some 8000%float)
          four_products).1
       = Return [p2; p3]
       ∧ ProductInDB.name p2 = "Product 2" ∧ ProductInDB.price p2 = 6000%float
       ∧ ProductInDB.name p3 = "Product 3" ∧ ProductInDB.price p3 = 7500%float).
Proof.
  split; [done|]. split; [|split].
  - intros w w' skip limit min_price max_price ps Hlist.
    unfold ProductUseCases.list_products in Hlist.
    apply get_all_Return in Hlist as [-> Hall].
    rewrite (filter_ext_bool _ _ _ (matches_price_filters min_price max_price))
      in Hall.
    split.
    + induction Hall as [|d p docs ps' Hp _ IH]; simpl; [done|].
      apply convert_id_price in Hp as [-> _]. by rewrite IH.
    + assert (Forall (λ d, selected min_price max_price d = true)
                (take limit (drop skip
                   (List.filter (selected min_price max_price) (products w)))))
        as Hsel.
      { apply Forall_forall. intros d Hd%subseteq_take%subseteq_drop.
        apply list_elem_of_In, filter_In in Hd. tauto. }
      induction Hall as [|d p docs ps' Hp _ IH]; [constructor|].
      apply Forall_cons in Hsel as [Hd Hsel].
      constructor; [|by apply IH].
      apply convert_id_price in Hp as [_ Hprice].
      unfold selected, strictly_within in Hd. rewrite Hprice in Hd.
      split.
      * intros lo ->. destruct max_price; by apply andb_true_iff in Hd as [? _].
      * intros hi ->. destruct min_price; by apply andb_true_iff in Hd as [_ ?].
  - vm_compute. reflexivity.
  - eexists _, _. split; [vm_compute; reflexivity|]. by vm_compute.
Qed.

(** *** Partial updates *)

Lemma lookup_dump_field {A} key (inj : A → value) f m k :
  dump_field key inj f m !! k =
  if decide (key = k)
  then match f with
       | Unset => m !! k
       | Null => Some BNull
       | Given a => Some (inj a)
       end
  else m !! k.
Proof.
  destruct f; simpl; case_decide; subst;
    by rewrite ?lookup_insert_eq, ?lookup_insert_ne by done.
Qed.

(** Whether the caller supplied [updated_at] decides what the [$set]
    document holds under that key. *)
Lemma update_document_updated_at w u :
  update_document w u !! "updated_at" =
  Some match ProductUpdate.updated_at u with
       | Unset => BDate (clock w (clock_reads w))
       | Null => BNull
       | Given t => BDate t
       end.
Proof.
  unfold update_document.
  assert (model_dump_exclude_unset u !! "updated_at" =
          match ProductUpdate.updated_at u with
          | Unset => None
          | Null => Some BNull
          | Given t => Some (BDate t)
          end) as Hdump.
  { unfold model_dump_exclude_unset. rewrite !lookup_dump_field.
    repeat (case_decide; [discriminate|]). case_decide; [|done].
    by destruct (ProductUpdate.updated_at u). }
  rewrite Hdump.
  destruct (ProductUpdate.updated_at u); simpl; rewrite ?Hdump; try done.
  by rewrite lookup_insert_eq.
Qed.

(** A key the caller did not supply, other than [updated_at], is not in
    the [$set] document. *)
Lemma update_document_unsupplied w u key :
  model_dump_exclude_unset u !! key = None → key ≠ "updated_at" →
  update_document w u !! key = None.
Proof.
  intros Hkey Hne. unfold update_document.
  destruct (model_dump_exclude_unset u !! "updated_at"); [done|].
  by rewrite lookup_insert_ne.
Qed.

(** [update] on a stored product sends the [$set] document to the first
    document with that id and touches nothing else. *)
Lemma update_products w product_id oid u :
  oid_parse product_id = Some oid →
  is_Some (stored w oid) →
  products (update product_id u w).2
  = set_first oid (update_document w u) (products w).
Proof.
  intros Hparse Hstored%stored_some_existsb.
  unfold update, update_document. rewrite Hparse.
  destruct (model_dump_exclude_unset u !! "updated_at") as [v|];
    unfold bind, ret, utcnow, update_one, find_one, lift, with_products;
    cbn [products clock clock_reads]; rewrite Hstored; simpl; done.
Qed.

Lemma update_stored w product_id oid u fields :
  oid_parse product_id = Some oid →
  stored w oid = Some fields →
  stored (update product_id u w).2 oid
  = Some ((encode <$> update_document w u) ∪ fields).
Proof.
  intros Hparse Hstored. unfold stored at 1.
  rewrite (update_products w product_id oid u Hparse) by (by rewrite Hstored).
  rewrite find_set_first. unfold stored in Hstored.
  destruct (List.find (has_id oid) (products w)) as [d|]; [|done].
  simpl in *. by injection Hstored as ->.
Qed.

(** The world after a route is the world after its repository call. *)
Lemma not_found_to_404_world {A} (m : M A) w :
  (not_found_to_404 m w).2 = (m w).2.
Proof.
  unfold not_found_to_404, try_except, raise.
  destruct (m w) as [[a|[]] w']; done.
Qed.

(** C4, as amended. A partial update leaves every field of the stored
    product unchanged except the fields it supplies and [updated_at]. *)
Theorem update_preserves_unsupplied_fields (w : World) (product_id : string)
    (oid : ObjectId) (u : ProductUpdate.t) (key : string) :
  oid_parse product_id = Some oid →
  is_Some (stored w oid) →
  model_dump_exclude_unset u !! key = None →
  key ≠ "updated_at" →
  stored_field (PATCH_product product_id u w).2 oid key = stored_field w oid key.
Proof.
  intros Hparse [fields Hstored] Hkey Hne.
  unfold PATCH_product, serve, get_product_controller.update_product,
    ProductUseCases.update_product.
  cbn [snd]. rewrite not_found_to_404_world.
  unfold stored_field.
  rewrite (update_stored w product_id oid u fields Hparse Hstored), Hstored.
  rewrite lookup_union_r; [done|].
  by rewrite lookup_fmap, update_document_unsupplied.
Qed.

(** C7, as amended. On a stored product, [updated_at] becomes the server's
    current time unless the caller supplies a value, which is then stored
    instead; either is stored as the collection stores any date, with the
    microseconds below the millisecond dropped, and a supplied [null] is
    stored as [null]. *)
Theorem update_refreshes_updated_at (w : World) (product_id : string)
    (oid : ObjectId) (u : ProductUpdate.t) :
  oid_parse product_id = Some oid →
  is_Some (stored w oid) →
  stored_field (update product_id u w).2 oid "updated_at"
  = Some match ProductUpdate.updated_at u with
         | Unset => BDate (to_millis (clock w (clock_reads w)))
         | Null => BNull
         | Given t => BDate (to_millis t)
         end.
Proof.
  intros Hparse [fields Hstored]. unfold stored_field.
  rewrite (update_stored w product_id oid u fields Hparse Hstored).
  rewrite lookup_union_l', lookup_fmap, update_document_updated_at.
  - by destruct (ProductUpdate.updated_at u).
  - rewrite lookup_fmap, update_document_updated_at. by eexists.
Qed.

Lemma update_preserves_unsupplied_fields_witness :
  stored_field (PATCH_product first_product_id rename_only four_products).2
    first_product_oid "price"
  = stored_field four_products first_product_oid "price".
Proof.
  apply (update_preserves_unsupplied_fields four_products first_product_id
           first_product_oid rename_only "price").
  - reflexivity.
  - eexists. vm_compute. reflexivity.
  - reflexivity.
  - discriminate.
Defined.

(** C4, as stated, fails: a request that supplies only [name] also changes
    the stored [updated_at]. *)
Lemma single_field_update_changes_updated_at :
  model_dump_exclude_unset rename_only = {["name" := BString "Updated Name"]}
  ∧ oid_parse first_product_id = Some first_product_oid
  ∧ stored_field four_products first_product_oid "updated_at"
    = Some (BDate 1700000001623000%Z)
  ∧ stored_field (PATCH_product first_product_id rename_only four_products).2
      first_product_oid "updated_at"
    = Some (BDate 1700000012123000%Z)
  ∧ stored_field (PATCH_product first_product_id rename_only four_products).2
      first_product_oid "updated_at"
    ≠ stored_field four_products first_product_oid "updated_at".
Proof.
  split; [reflexivity|]. split; [reflexivity|].
  assert (stored_field four_products first_product_oid "updated_at"
          = Some (BDate 1700000001623000%Z)) as Hbefore
    by (vm_compute; reflexivity).
  assert (stored_field (PATCH_product first_product_id rename_only four_products).2
            first_product_oid "updated_at"
          = Some (BDate 1700000012123000%Z)) as Hafter
    by (vm_compute; reflexivity).
  split; [exact Hbefore|]. split; [exact Hafter|].
  rewrite Hbefore, Hafter. discriminate.
Qed.

Lemma update_refreshes_updated_at_witness :
  stored_field (update first_product_id rename_only four_products).2
    first_product_oid "updated_at"
  = Some (BDate (to_millis (clock four_products (clock_reads four_products)))).
Proof.
  apply (update_refreshes_updated_at four_products first_product_id
           first_product_oid rename_only).
  - reflexivity.
  - eexists. vm_compute. reflexivity.
Defined.

(** C7, as stated, fails: a supplied [updated_at] with microseconds is not
    the value stored. *)
Lemma supplied_updated_at_loses_its_microseconds :
  oid_parse first_product_id = Some first_product_oid
  ∧ is_Some (stored four_products first_product_oid)
  ∧ stored_field
      (update first_product_id
         (ProductUpdate.mk Unset Unset Unset Unset
            (Given 1700000100123456%Z)) four_products).2
      first_product_oid "updated_at"
    = Some (BDate 1700000100123000%Z)
  ∧ stored_field
      (update first_product_id
         (ProductUpdate.mk Unset Unset Unset Unset
            (Given 1700000100123456%Z)) four_products).2
      first_product_oid "updated_at"
    ≠ Some (BDate 1700000100123456%Z).
Proof.
  split; [reflexivity|]. split; [eexists; vm_compute; reflexivity|].
  assert (stored_field
            (update first_product_id
               (ProductUpdate.mk Unset Unset Unset Unset
                  (Given 1700000100123456%Z)) four_products).2
            first_product_oid "updated_at"
          = Some (BDate 1700000100123000%Z)) as Hstored
    by (vm_compute; reflexivity).
  split; [exact Hstored|]. rewrite Hstored. discriminate.
Qed.

(** *** Identifiers that match nothing *)

Lemma is_valid_false product_id :
  is_valid product_id = false ↔ oid_parse product_id = None.
Proof. unfold is_valid. by destruct (oid_parse product_id). Qed.

Ltac run_route :=
  unfold GET_product, PATCH_product, DELETE_product, serve,
    get_product_controller.get_product, get_product_controller.update_product,
    get_product_controller.delete_product, ProductUseCases.get_product,
    ProductUseCases.update_product, ProductUseCases.delete_product,
    not_found_to_404, try_except, get_by_id, update, delete.

Lemma routes_malformed_id w product_id u :
  is_valid product_id = false →
  GET_product product_id w = (Failure 404 "Invalid product ID", w)
  ∧ PATCH_product product_id u w = (Failure 404 "Invalid product ID", w)
  ∧ DELETE_product product_id w = (Failure 404 "Invalid product ID", w).
Proof. intros Hbad%is_valid_false. run_route. by rewrite Hbad. Qed.

Lemma routes_absent_id w product_id u oid :
  oid_parse product_id = Some oid → stored w oid = None →
  GET_product product_id w = (Failure 404 (not_found_msg product_id), w)
  ∧ (PATCH_product product_id u w).1 = Failure 404 (not_found_msg product_id)
  ∧ products (PATCH_product product_id u w).2 = products w
  ∧ DELETE_product product_id w = (Failure 404 (not_found_msg product_id), w).
Proof.
  intros Hparse Habsent. run_route. rewrite Hparse.
  pose proof Habsent as Hnone. unfold stored in Hnone.
  apply fmap_None in Hnone. apply stored_none_existsb in Habsent.
  unfold bind, find_one, update_one, delete_one, ret, raise, utcnow.
  cbn [products]. rewrite Hnone.
  repeat split; try done;
    destruct (model_dump_exclude_unset u !! "updated_at");
    cbn [products]; by rewrite Habsent.
Qed.







End StoreFacts.

(** ** workoutapi.py *)
Module WorkoutFacts.
Import Py Workout PyFacts.

(** *** Integrity errors *)

(** The INSERT names its columns, so the rendering of any error it raises
    holds the text [cpf], whatever the driver's message and the engine. *)
Lemma insert_error_mentions_cpf (e : Engine) (message params : string) :
  str_in "cpf"
    (lower (str_IntegrityError (mkIntegrityError message (insert_sql e) params)))
  = true.
Proof.
  unfold str_IntegrityError, insert_sql. cbn [orig statement parameters].
  rewrite !lower_app.
  apply str_in_app_r, str_in_app_r, str_in_app_r, str_in_app_l.
  apply str_in_app_r, str_in_app_l.
  reflexivity.
Qed.

Lemma check_not_null_new atleta :
  check_not_null (atleta_values (new_Atleta atleta)) = None.
Proof. reflexivity. Qed.

(** [create_atleta] either writes the row or answers 303 and writes
    nothing. *)
Lemma create_atleta_cases e atleta db :
  match first_violation e db (atletas db) (atleta_values (new_Atleta atleta)) with
  | Some _ =>
      create_atleta e atleta db
      = (HTTPException 303 (cpf_conflict (AtletaCreate.cpf atleta)), db)
  | None =>
      ∃ r, create_atleta e atleta db
           = (Ok r, with_atletas db
                      (atletas db
                       ++ [with_id (next_id (atletas db)) (new_Atleta atleta)]))
  end.
Proof.
  unfold create_atleta, commit_insert.
  destruct (first_violation e db (atletas db)
              (atleta_values (new_Atleta atleta))) as [v|].
  - unfold on_integrity_error. by rewrite insert_error_mentions_cpf.
  - by eexists.
Qed.

Lemma starts_with_refl (s : list ascii) : starts_with s s = true.
Proof. induction s as [|c s IH]; simpl; [done|]. by rewrite Ascii.eqb_refl. Qed.

Lemma str_in_refl (s : string) : str_in s s = true.
Proof.
  unfold str_in. destruct (chars s) as [|c l] eqn:H; [done|].
  simpl. by rewrite Ascii.eqb_refl, starts_with_refl.
Qed.

(** The conflict message ends with the cpf it is about. *)
Lemma cpf_conflict_names_cpf (cpf_value : string) :
  str_in cpf_value (cpf_conflict cpf_value) = true.
Proof. unfold cpf_conflict. apply str_in_app_r, str_in_refl. Qed.

Lemma duplicate_cpf_violates e atleta db :
  existsb (λ b, same_text (Atleta.cpf b) (Some (AtletaCreate.cpf atleta)))
    (atletas db) = true →
  first_violation e db (atletas db) (atleta_values (new_Atleta atleta))
  = Some (UniqueViolation "atletas" "cpf" (SText (AtletaCreate.cpf atleta))).
Proof.
  intros Hdup. unfold first_violation. rewrite check_not_null_new.
  unfold check_unique_cpf. cbn. by rewrite Hdup.
Qed.

(** C2. A creation whose cpf is already stored is answered 303 with a
    message that holds the cpf, and nothing is written.  The rest of the
    claim fails on the code: every other integrity violation of the
    insert is answered 303 as well, never 400, as the creation of an
    athlete of a missing training centre on an engine that enforces
    foreign keys shows. *)
Theorem create_atleta_answers_303_for_every_violation :
  (∀ e atleta db,
     existsb (λ b, same_text (Atleta.cpf b) (Some (AtletaCreate.cpf atleta)))
       (atletas db) = true →
     create_atleta e atleta db
     = (HTTPException 303 (cpf_conflict (AtletaCreate.cpf atleta)), db)
     ∧ str_in (AtletaCreate.cpf atleta)
         (cpf_conflict (AtletaCreate.cpf atleta)) = true)
  ∧ (∀ e atleta db v,
       first_violation e db (atletas db) (atleta_values (new_Atleta atleta))
       = Some v →
       create_atleta e atleta db
       = (HTTPException 303 (cpf_conflict (AtletaCreate.cpf atleta)), db))
  ∧ (∀ e atleta db detail db',
       create_atleta e atleta db ≠ (HTTPException 400 detail, db'))
  ∧ create_atleta sqlite bia with_ana
    = (HTTPException 303 "Já existe um atleta cadastrado com o cpf: 12345678901",
       with_ana)
  ∧ atletas one_centro = []
  ∧ first_violation postgresql one_centro (atletas one_centro)
      (atleta_values (new_Atleta eva))
    = Some (ForeignKeyViolation "atletas" "centro_treinamento_id" (SInt 99)
              "centros_treinamento")
  ∧ create_atleta postgresql eva one_centro
    = (HTTPException 303 "Já existe um atleta cadastrado com o cpf: 99999999999",
       one_centro).
Proof.
  split; [|split; [|split]].
  - intros e atleta db Hdup. split; [|apply cpf_conflict_names_cpf].
    pose proof (create_atleta_cases e atleta db) as H.
    by rewrite (duplicate_cpf_violates e atleta db Hdup) in H.
  - intros e atleta db v Hv.
    pose proof (create_atleta_cases e atleta db) as H. by rewrite Hv in H.
  - intros e atleta db detail db' Heq.
    pose proof (create_atleta_cases e atleta db) as H.
    destruct (first_violation e db (atletas db)
                (atleta_values (new_Atleta atleta))).
    + rewrite H in Heq. discriminate.
    + destruct H as [r H]. rewrite H in Heq. discriminate.
  - repeat split; reflexivity.
Qed.

(** *** Updates *)

Lemma replace_row_keys u a atleta_id rows :
  List.find (λ b, Z.eqb (Atleta.id b) atleta_id) rows = Some a →
  map key_of (replace_row (setattrs u a) rows) = map key_of rows.
Proof.
  induction rows as [|b rows IH]; simpl; [done|].
  destruct (Z.eqb (Atleta.id b) atleta_id) eqn:Hb.
  - intros [= ->]. by rewrite Z.eqb_refl.
  - intros Hfind. pose proof Hfind as [_ Ha%Z.eqb_eq]%find_some.
    rewrite Ha, Hb. simpl. by rewrite IH.
Qed.

(** One PUT leaves the key and the cpf of every row as they were, whether
    it commits, finds nothing or is rolled back. *)
Lemma update_atleta_keys e atleta_id u db :
  map key_of (atletas (update_atleta e atleta_id u db).2)
  = map key_of (atletas db).
Proof.
  unfold update_atleta, first_by_id.
  destruct (List.find _ (atletas db)) as [a|] eqn:Hfind; [|done].
  unfold commit_update.
  destruct (changed _ _); [done|].
  destruct (first_violation _ _ _ _); [done|].
  cbn [snd atletas with_atletas]. by apply (replace_row_keys u a atleta_id).
Qed.

(** C10. No PUT request, and no sequence of them, changes the cpf of a
    stored athlete: after the requests the table holds the same keys with
    the same cpf values, in the same order. *)
Theorem update_atleta_never_changes_cpf (e : Engine)
    (requests : list (Z * AtletaUpdate.t)) (db : Database) :
  map key_of (atletas (put_all e requests db)) = map key_of (atletas db).
Proof.
  revert db. induction requests as [|[atleta_id u] requests IH]; intros db.
  - done.
  - cbn [put_all]. rewrite IH. apply update_atleta_keys.
Qed.

(** *** Listing *)























(** *** Loading the module *)

Lemma exec_unbound ns s name :
  In name (reads s) → name ∉ ns → ∃ x, exec ns s = inl (name_not_defined x).
Proof.
  intros Hin Hns. unfold exec.
  destruct (List.find _ (reads s)) as [x|] eqn:Hfind; [by eexists|].
  pose proof (find_none _ _ Hfind name Hin) as H. simpl in H.
  apply negb_false_iff, bool_decide_eq_true in H. done.
Qed.

(** C6. [get_atletas] cannot be defined: [Params], which annotates its last
    parameter, is bound by no statement of the module and is no builtin, so
    in every namespace without it the [def] raises a NameError; in the
    namespace that the statements before it build the name it fails on is
    [Params]; and loading the module raises there, or on its first line
    when the stray first line is counted. *)
Theorem get_atletas_def_raises_NameError :
  ("Params" ∉ builtins ∪ bound_names workoutapi_py)
  ∧ (∀ ns : gset string, "Params" ∉ ns →
       ∃ name, exec ns def_get_atletas = inl (name_not_defined name))
  ∧ (∃ ns, exec_module builtins before_get_atletas = inr ns
           ∧ exec ns def_get_atletas = inl (name_not_defined "Params"))
  ∧ exec_module builtins
      (before_get_atletas ++ (187, def_get_atletas) :: after_get_atletas)
    = inl (187, name_not_defined "Params")
  ∧ exec_module builtins workoutapi_py = inl (1, name_not_defined "workoutapi").
Proof.
  split; [|split; [|split; [|split]]].
  - assert (bool_decide ("Params" ∈ builtins ∪ bound_names workoutapi_py)
            = false) as H by (vm_compute; reflexivity).
    by apply bool_decide_eq_false in H.
  - intros ns Hns. apply (exec_unbound ns def_get_atletas "Params"); [|done].
    simpl. tauto.
  - eexists. split; vm_compute; reflexivity.
  - vm_compute. reflexivity.
  - vm_compute. reflexivity.
Qed.

End WorkoutFacts.

(** * Further properties *)

(** ** store_api.py *)
Module StoreExtras.
Import Py Bson Store Store.ProductRepository PyFacts BsonFacts StoreFacts.
Local Open Scope py_scope.

(** *** Reading a document *)

Lemma read_str_Raise lo hi key m e :
  read_str lo hi key m = Raise e → e = ValidationError key.
Proof.
  unfold read_str. destruct (m !! key) as [[|s| |]|]; try congruence.
  destruct (len_between lo hi s); congruence.
Qed.

Lemma read_opt_str_Raise hi key m e :
  read_opt_str hi key m = Raise e → e = ValidationError key.
Proof.
  unfold read_opt_str. destruct (m !! key) as [[|s| |]|]; try congruence.
  destruct (len_between 0 hi s); congruence.
Qed.

Lemma read_positive_Raise key m e :
  read_positive key m = Raise e → e = ValidationError key.
Proof.
  unfold read_positive. destruct (m !! key) as [[| |x|]|]; try congruence.
  destruct (PrimFloat.ltb 0 x); congruence.
Qed.

Lemma read_datetime_Raise key m e :
  read_datetime key m = Raise e → e = ValidationError key.
Proof.
  unfold read_datetime. destruct (m !! key) as [[| | |]|]; congruence.
Qed.

(** The conversion of a document raises nothing but a validation error. *)
Lemma convert_Raise d e :
  _convert_to_product_in_db (Some d) = Raise e → ∃ key, e = ValidationError key.
Proof.
  unfold _convert_to_product_in_db.
  destruct (read_str 1 100 "name" _) eqn:H1; cbn [and_then];
    [|intros [= <-]; eauto using read_str_Raise].
  destruct (read_opt_str 500 "description" _) eqn:H2; cbn [and_then];
    [|intros [= <-]; eauto using read_opt_str_Raise].
  destruct (read_positive "price" _) eqn:H3; cbn [and_then];
    [|intros [= <-]; eauto using read_positive_Raise].
  destruct (read_str 1 50 "category" _) eqn:H4; cbn [and_then];
    [|intros [= <-]; eauto using read_str_Raise].
  destruct (read_datetime "created_at" _) eqn:H5; cbn [and_then];
    [|intros [= <-]; eauto using read_datetime_Raise].
  destruct (read_datetime "updated_at" _) eqn:H6; cbn [and_then];
    [discriminate|intros [= <-]; eauto using read_datetime_Raise].
Qed.

(** What a readable document holds, field by field. *)
Lemma convert_Return d p :
  _convert_to_product_in_db (Some d) = Return p →
  ProductInDB.id p = oid_str (doc_id d)
  ∧ read_str 1 100 "name" (doc_fields d) = Return (ProductInDB.name p)
  ∧ read_opt_str 500 "description" (doc_fields d)
    = Return (ProductInDB.description p)
  ∧ read_positive "price" (doc_fields d) = Return (ProductInDB.price p)
  ∧ read_str 1 50 "category" (doc_fields d) = Return (ProductInDB.category p)
  ∧ read_datetime "created_at" (doc_fields d) = Return (ProductInDB.created_at p)
  ∧ read_datetime "updated_at" (doc_fields d) = Return (ProductInDB.updated_at p).
Proof.
  unfold _convert_to_product_in_db.
  intros (name & H1 & H)%and_then_Return.
  apply and_then_Return in H as (description & H2 & H).
  apply and_then_Return in H as (price & H3 & H).
  apply and_then_Return in H as (category & H4 & H).
  apply and_then_Return in H as (created_at & H5 & H).
  apply and_then_Return in H as (updated_at & H6 & H).
  injection H as <-. cbn. by repeat split.
Qed.

Lemma convert_of_reads d id name description price category created_at updated_at :
  id = oid_str (doc_id d) →
  read_str 1 100 "name" (doc_fields d) = Return name →
  read_opt_str 500 "description" (doc_fields d) = Return description →
  read_positive "price" (doc_fields d) = Return price →
  read_str 1 50 "category" (doc_fields d) = Return category →
  read_datetime "created_at" (doc_fields d) = Return created_at →
  read_datetime "updated_at" (doc_fields d) = Return updated_at →
  _convert_to_product_in_db (Some d)
  = Return (ProductInDB.mk id name description price category created_at
              updated_at).
Proof.
  intros -> H1 H2 H3 H4 H5 H6. unfold _convert_to_product_in_db.
  by rewrite H1, H2, H3, H4, H5, H6.
Qed.


(** *** The [$set] document, key by key *)

Lemma dump_lookups u :
  model_dump_exclude_unset u !! "name" = as_value BString (ProductUpdate.name u)
  ∧ model_dump_exclude_unset u !! "description"
    = as_value BString (ProductUpdate.description u)
  ∧ model_dump_exclude_unset u !! "price"
    = as_value BDouble (ProductUpdate.price u)
  ∧ model_dump_exclude_unset u !! "category"
    = as_value BString (ProductUpdate.category u)
  ∧ model_dump_exclude_unset u !! "created_at" = None.
Proof.
  unfold model_dump_exclude_unset. rewrite !lookup_dump_field.
  repeat split; repeat (case_decide; try discriminate);
    try done;
    by repeat match goal with
              | |- context [ProductUpdate.name u] =>
                  destruct (ProductUpdate.name u)
              | |- context [ProductUpdate.description u] =>
                  destruct (ProductUpdate.description u)
              | |- context [ProductUpdate.price u] =>
                  destruct (ProductUpdate.price u)
              | |- context [ProductUpdate.category u] =>
                  destruct (ProductUpdate.category u)
              end.
Qed.

Lemma update_document_other w u key :
  key ≠ "updated_at" →
  update_document w u !! key = model_dump_exclude_unset u !! key.
Proof.
  intros Hne. unfold update_document.
  destruct (model_dump_exclude_unset u !! "updated_at"); [done|].
  by rewrite lookup_insert_ne.
Qed.

Lemma encode_as_value_string (f : supplied string) :
  encode <$> as_value BString f = as_value BString f.
Proof. by destruct f. Qed.

Lemma encode_as_value_double (f : supplied float) :
  encode <$> as_value BDouble f = as_value BDouble f.
Proof. by destruct f. Qed.

(** What the stored [$set] document holds under each key. *)
Lemma sent_lookups w u :
  let sent := encode <$> update_document w u in
  sent !! "name" = as_value BString (ProductUpdate.name u)
  ∧ sent !! "description" = as_value BString (ProductUpdate.description u)
  ∧ sent !! "price" = as_value BDouble (ProductUpdate.price u)
  ∧ sent !! "category" = as_value BString (ProductUpdate.category u)
  ∧ sent !! "created_at" = None
  ∧ sent !! "updated_at"
    = Some match ProductUpdate.updated_at u with
           | Unset => BDate (to_millis (clock w (clock_reads w)))
           | Null => BNull
           | Given t => BDate (to_millis t)
           end.
Proof.
  cbv zeta. rewrite !lookup_fmap.
  rewrite !update_document_other by done.
  rewrite update_document_updated_at.
  destruct (dump_lookups u) as (-> & -> & -> & -> & ->).
  rewrite !encode_as_value_string, encode_as_value_double.
  repeat split; try done. by destruct (ProductUpdate.updated_at u).
Qed.

(** *** Reading a field after a [$set] *)

Lemma read_str_set lo hi key (sent fields : gmap string value) f old :
  sent !! key = as_value BString f →
  not_null f = true → valid_supplied (len_between lo hi) f = true →
  read_str lo hi key fields = Return old →
  read_str lo hi key (sent ∪ fields) = Return (replace f old).
Proof.
  intros Hsent Hnn Hvalid Hold. unfold read_str in *.
  destruct f as [| |s]; simpl in *; [|discriminate|].
  - by rewrite lookup_union_r.
  - rewrite (lookup_union_Some_l _ _ _ _ Hsent). by rewrite Hvalid.
Qed.

Lemma read_positive_set key (sent fields : gmap string value) f old :
  sent !! key = as_value BDouble f →
  not_null f = true → valid_supplied (PrimFloat.ltb 0) f = true →
  read_positive key fields = Return old →
  read_positive key (sent ∪ fields) = Return (replace f old).
Proof.
  intros Hsent Hnn Hvalid Hold. unfold read_positive in *.
  destruct f as [| |x]; simpl in *; [|discriminate|].
  - by rewrite lookup_union_r.
  - rewrite (lookup_union_Some_l _ _ _ _ Hsent). by rewrite Hvalid.
Qed.

Lemma read_opt_str_set hi key (sent fields : gmap string value) f old :
  sent !! key = as_value BString f →
  valid_supplied (len_between 0 hi) f = true →
  read_opt_str hi key fields = Return old →
  read_opt_str hi key (sent ∪ fields)
  = Return match f with
           | Unset => old
           | Null => None
           | Given s => Some s
           end.
Proof.
  intros Hsent Hvalid Hold. unfold read_opt_str in *.
  destruct f as [| |s]; simpl in *.
  - by rewrite lookup_union_r.
  - by rewrite (lookup_union_Some_l _ _ _ _ Hsent).
  - rewrite (lookup_union_Some_l _ _ _ _ Hsent). by rewrite Hvalid.
Qed.

Lemma valid_ProductUpdate_inv u :
  valid_ProductUpdate u = true →
  valid_supplied (len_between 1 100) (ProductUpdate.name u) = true
  ∧ valid_supplied (len_between 0 500) (ProductUpdate.description u) = true
  ∧ valid_supplied (PrimFloat.ltb 0) (ProductUpdate.price u) = true
  ∧ valid_supplied (len_between 1 50) (ProductUpdate.category u) = true.
Proof.
  unfold valid_ProductUpdate. rewrite !andb_true_iff. tauto.
Qed.

Lemma null_free_inv u :
  null_free u = true →
  not_null (ProductUpdate.name u) = true
  ∧ not_null (ProductUpdate.price u) = true
  ∧ not_null (ProductUpdate.category u) = true
  ∧ not_null (ProductUpdate.updated_at u) = true.
Proof. unfold null_free. rewrite !andb_true_iff. tauto. Qed.

(** The document that a well-formed update leaves converts to the record
    with the supplied fields replaced. *)
Lemma convert_updated w u d p :
  _convert_to_product_in_db (Some d) = Return p →
  valid_ProductUpdate u = true → null_free u = true →
  _convert_to_product_in_db
    (Some (mkDocument (doc_id d)
             ((encode <$> update_document w u) ∪ doc_fields d)))
  = Return (updated (clock w (clock_reads w)) u p).
Proof.
  intros (Hid & H1 & H2 & H3 & H4 & H5 & H6)%convert_Return
         (V1 & V2 & V3 & V4)%valid_ProductUpdate_inv
         (N1 & N3 & N4 & N6)%null_free_inv.
  destruct (sent_lookups w u) as (S1 & S2 & S3 & S4 & S5 & S6).
  unfold updated. apply convert_of_reads; cbn [doc_id doc_fields].
  - done.
  - by apply read_str_set.
  - by apply read_opt_str_set.
  - by apply read_positive_set.
  - by apply read_str_set.
  - unfold read_datetime in *. by rewrite lookup_union_r.
  - unfold read_datetime. rewrite (lookup_union_Some_l _ _ _ _ S6).
    by destruct (ProductUpdate.updated_at u).
Qed.


(** *** Lookup and update, run *)

Lemma get_by_id_run product_id w :
  get_by_id product_id w =
  (match oid_parse product_id with
   | None => Raise (ProductNotFoundException "Invalid product ID")
   | Some oid =>
       match List.find (has_id oid) (products w) with
       | None => Raise (ProductNotFoundException (not_found_msg product_id))
       | Some d => _convert_to_product_in_db (Some d)
       end
   end, w).
Proof.
  unfold get_by_id. destruct (oid_parse product_id) as [oid|]; [|done].
  unfold bind, find_one, raise, lift.
  by destruct (List.find (has_id oid) (products w)).
Qed.

(** A lookup that returns tells where the record comes from. *)
Lemma get_by_id_Return product_id w p :
  (get_by_id product_id w).1 = Return p →
  ∃ oid d, oid_parse product_id = Some oid
           ∧ List.find (has_id oid) (products w) = Some d
           ∧ _convert_to_product_in_db (Some d) = Return p.
Proof.
  rewrite get_by_id_run. cbn [fst].
  destruct (oid_parse product_id) as [oid|]; [|discriminate].
  destruct (List.find (has_id oid) (products w)) as [d|] eqn:Hd; [|discriminate].
  intros H. by exists oid, d.
Qed.

Lemma find_existsb oid ds d :
  List.find (has_id oid) ds = Some d → existsb (has_id oid) ds = true.
Proof.
  intros H. destruct (existsb (has_id oid) ds) eqn:He; [done|].
  apply find_none_existsb in He. congruence.
Qed.

(** What [update] returns for a stored product. *)
Lemma update_result w product_id oid u d :
  oid_parse product_id = Some oid →
  List.find (has_id oid) (products w) = Some d →
  (update product_id u w).1
  = _convert_to_product_in_db
      (Some (mkDocument (doc_id d)
               ((encode <$> update_document w u) ∪ doc_fields d))).
Proof.
  intros Hparse Hfind. pose proof (find_existsb _ _ _ Hfind) as Hex.
  unfold update, update_document. rewrite Hparse.
  destruct (model_dump_exclude_unset u !! "updated_at") as [v|];
    unfold bind, ret, utcnow, update_one, find_one, lift, with_products;
    cbn [products clock clock_reads]; rewrite Hex; cbn;
    by rewrite find_set_first, Hfind.
Qed.

Lemma find_after_update w product_id oid u d :
  oid_parse product_id = Some oid →
  List.find (has_id oid) (products w) = Some d →
  List.find (has_id oid) (products (update product_id u w).2)
  = Some (mkDocument (doc_id d)
            ((encode <$> update_document w u) ∪ doc_fields d)).
Proof.
  intros Hparse Hfind.
  rewrite (update_products w product_id oid u Hparse).
  - by rewrite find_set_first, Hfind.
  - unfold stored. rewrite Hfind. by eexists.
Qed.

(** The response of a route that raised nothing but a validation error. *)
Lemma respond_not_found_to_404 {A} (m : M A) w status :
  (∀ e, (m w).1 = Raise e → ∃ key, e = ValidationError key) →
  respond status (not_found_to_404 m w).1
  = match (m w).1 with
    | Return a => Success status a
    | Raise _ => Failure 500 "Internal Server Error"
    end.
Proof.
  intros Hraise. unfold not_found_to_404, try_except, raise.
  destruct (m w) as [[a|e] w'] eqn:Hm; cbn [fst] in *; [done|].
  destruct (Hraise e eq_refl) as [key ->]. done.
Qed.

(** X1. A well-formed PATCH of a readable product answers 200 with the
    record in which the supplied fields are replaced and [updated_at] is
    the supplied value or else the clock reading; a lookup that follows
    answers the same record. *)
Theorem patch_returns_updated_record (w : World) (product_id : string)
    (u : ProductUpdate.t) (p : ProductInDB.t) :
  (get_by_id product_id w).1 = Return p →
  valid_ProductUpdate u = true →
  null_free u = true →
  (PATCH_product product_id u w).1
  = Success 200 (updated (clock w (clock_reads w)) u p)
  ∧ (GET_product product_id (PATCH_product product_id u w).2).1
    = Success 200 (updated (clock w (clock_reads w)) u p).
Proof.
  intros (oid & d & Hparse & Hfind & Hconv)%get_by_id_Return Hvalid Hnull.
  pose proof (convert_updated w u d p Hconv Hvalid Hnull) as Hnew.
  pose proof (update_result w product_id oid u d Hparse Hfind) as Hres.
  pose proof (find_after_update w product_id oid u d Hparse Hfind) as Hafter.
  rewrite Hnew in Hres.
  unfold PATCH_product, GET_product, serve,
    get_product_controller.update_product, get_product_controller.get_product,
    ProductUseCases.update_product, ProductUseCases.get_product.
  cbn [fst snd]. rewrite not_found_to_404_world. split.
  - rewrite respond_not_found_to_404; rewrite Hres; [done|discriminate].
  - rewrite respond_not_found_to_404; rewrite get_by_id_run; cbn [fst];
      rewrite Hparse, Hafter, Hnew; [done|discriminate].
Qed.

Lemma patch_returns_updated_record_witness :
  (PATCH_product first_product_id rename_only four_products).1
  = Success 200
      (updated (clock four_products (clock_reads four_products)) rename_only
         (ProductInDB.mk first_product_id "Product 1" None 100 "Test"
            1700000000123000%Z 1700000001623000%Z))
  ∧ (GET_product first_product_id
       (PATCH_product first_product_id rename_only four_products).2).1
    = Success 200
        (updated (clock four_products (clock_reads four_products)) rename_only
           (ProductInDB.mk first_product_id "Product 1" None 100 "Test"
              1700000000123000%Z 1700000001623000%Z)).
Proof.
  apply (patch_returns_updated_record four_products first_product_id
           rename_only); vm_compute; reflexivity.
Defined.


(** *** A [null] for a required field *)

Lemma null_is_sent w u :
  null_free u = false →
  ∃ key, key ∈ ["name"; "price"; "category"; "updated_at"]
         ∧ (encode <$> update_document w u) !! key = Some BNull.
Proof.
  intros Hnull. destruct (sent_lookups w u) as (S1 & _ & S3 & S4 & _ & S6).
  unfold null_free in Hnull. rewrite !andb_false_iff in Hnull.
  destruct Hnull as [[[Hn|Hn]|Hn]|Hn].
  - exists "name". split; [set_solver|].
    rewrite S1. by destruct (ProductUpdate.name u).
  - exists "price". split; [set_solver|].
    rewrite S3. by destruct (ProductUpdate.price u).
  - exists "category". split; [set_solver|].
    rewrite S4. by destruct (ProductUpdate.category u).
  - exists "updated_at". split; [set_solver|].
    rewrite S6. by destruct (ProductUpdate.updated_at u).
Qed.

(** A document that holds [null] under a required key does not convert. *)
Lemma convert_null_field d key :
  key ∈ ["name"; "price"; "category"; "updated_at"] →
  doc_fields d !! key = Some BNull →
  ∃ field, _convert_to_product_in_db (Some d) = Raise (ValidationError field).
Proof.
  intros Hkey Hnull.
  destruct (_convert_to_product_in_db (Some d)) as [p|e] eqn:Hconv;
    [|apply convert_Raise in Hconv as [field ->]; by exists field].
  apply convert_Return in Hconv as (_ & H1 & _ & H3 & H4 & _ & H6).
  unfold read_str, read_positive, read_datetime in *.
  repeat (apply elem_of_cons in Hkey as [->|Hkey];
          [by rewrite Hnull in *|]).
  by apply elem_of_nil in Hkey.
Qed.

(** X2. A PATCH that sends [null] for [name], [price], [category] or
    [updated_at] of a stored product is answered 500 after the [null] is
    written: the product then holds [null] under that key, and every
    lookup of a product that holds [null] under one of these keys is
    answered 500, for as long as the [null] is stored. *)
Theorem patch_null_makes_product_unreadable (w : World) (product_id : string)
    (oid : ObjectId) (u : ProductUpdate.t) :
  oid_parse product_id = Some oid →
  is_Some (stored w oid) →
  null_free u = false →
  (PATCH_product product_id u w).1 = Failure 500 "Internal Server Error"
  ∧ (∃ key, key ∈ ["name"; "price"; "category"; "updated_at"]
            ∧ stored_field (PATCH_product product_id u w).2 oid key
              = Some BNull)
  ∧ (∀ (w' : World) (key : string),
       key ∈ ["name"; "price"; "category"; "updated_at"] →
       stored_field w' oid key = Some BNull →
       (GET_product product_id w').1 = Failure 500 "Internal Server Error").
Proof.
  intros Hparse Hstored Hnull.
  assert (∃ d, List.find (has_id oid) (products w) = Some d) as [d Hfind].
  { unfold stored in Hstored. apply fmap_is_Some in Hstored as [d Hd]. eauto. }
  pose proof (update_result w product_id oid u d Hparse Hfind) as Hres.
  pose proof (find_after_update w product_id oid u d Hparse Hfind) as Hafter.
  destruct (null_is_sent w u Hnull) as (key & Hkey & Hsent).
  destruct (convert_null_field
              (mkDocument (doc_id d)
                 ((encode <$> update_document w u) ∪ doc_fields d)) key Hkey)
    as [field Hconv];
    [cbn [doc_fields]; by apply lookup_union_Some_l|].
  unfold PATCH_product, GET_product, serve,
    get_product_controller.update_product, get_product_controller.get_product,
    ProductUseCases.update_product, ProductUseCases.get_product.
  cbn [fst snd]. rewrite not_found_to_404_world.
  split; [|split].
  - rewrite respond_not_found_to_404; rewrite Hres, Hconv; [done|].
    intros e [= <-]. eauto.
  - exists key. split; [done|]. unfold stored_field, stored.
    rewrite Hafter. cbn. by apply lookup_union_Some_l.
  - intros w' key' Hkey' Hnull'. unfold stored_field, stored in Hnull'.
    destruct (List.find (has_id oid) (products w')) as [d'|] eqn:Hfind';
      [|discriminate].
    cbn in Hnull'.
    destruct (convert_null_field d' key' Hkey' Hnull') as [field' Hconv'].
    rewrite respond_not_found_to_404; rewrite get_by_id_run; cbn [fst];
      rewrite Hparse, Hfind', Hconv'; [done|].
    intros e [= <-]. eauto.
Qed.

Lemma patch_null_makes_product_unreadable_witness :
  (PATCH_product first_product_id
     (ProductUpdate.mk Null Unset Unset Unset Unset) four_products).1
  = Failure 500 "Internal Server Error"
  ∧ (∃ key, key ∈ ["name"; "price"; "category"; "updated_at"]
            ∧ stored_field
                (PATCH_product first_product_id
                   (ProductUpdate.mk Null Unset Unset Unset Unset)
                   four_products).2 first_product_oid key
              = Some BNull)
  ∧ (∀ (w' : World) (key : string),
       key ∈ ["name"; "price"; "category"; "updated_at"] →
       stored_field w' first_product_oid key = Some BNull →
       (GET_product first_product_id w').1
       = Failure 500 "Internal Server Error").
Proof.
  apply (patch_null_makes_product_unreadable four_products first_product_id
           first_product_oid (ProductUpdate.mk Null Unset Unset Unset Unset)).
  - vm_compute. reflexivity.
  - eexists. vm_compute. reflexivity.
  - reflexivity.
Defined.


(** *** Creation *)

Lemma find_app_old oid ds new :
  is_Some (List.find (has_id oid) ds) →
  List.find (has_id oid) (ds ++ new) = List.find (has_id oid) ds.
Proof.
  induction ds as [|d ds IH]; simpl; [by intros [? ?]|].
  destruct (has_id oid d); [done|]. apply IH.
Qed.

(** What [create] does when the drawn [_id] is already stored. *)
Lemma create_collision w p :
  existsb (has_id (twelve_bytes (oid_source w (oid_made w)))) (products w)
  = true →
  create p w =
  (Raise (ProductCreationException
            ("Error creating product: "
             +:+ write_error w (twelve_bytes (oid_source w (oid_made w))))),
   {| products := products w; clock := clock w;
      clock_reads := S (S (clock_reads w));
      oid_source := oid_source w; oid_made := S (oid_made w);
           write_error := write_error w |}).
Proof.
  intros Hdup.
  unfold create, try_except, bind, utcnow, insert_one, bind, new_ObjectId,
    raise.
  cbn [products clock clock_reads oid_source oid_made].
  by rewrite Hdup.
Qed.

(** X3. A valid POST is answered 201 with the record of the fields sent,
    of the identifier that the driver drew and of the two clock readings
    as the store keeps them; the document stored under that identifier is
    the one that reads back as this record, and one product more is
    stored.  When the identifier is already stored the POST is answered
    400 with the detail [Error creating product: ] followed by the
    server's text, and nothing is stored.  Either way every product stored
    before is stored unchanged after. *)
Theorem post_answers_201_or_400 (w : World) (product : ProductCreate.t) :
  valid_ProductCreate product = true →
  match stored w (twelve_bytes (oid_source w (oid_made w))) with
  | None =>
      (POST_products product w).1
      = Success 201
          (ProductInDB.mk
             (oid_str (twelve_bytes (oid_source w (oid_made w))))
             (ProductCreate.name product) (ProductCreate.description product)
             (ProductCreate.price product) (ProductCreate.category product)
             (to_millis (clock w (clock_reads w)))
             (to_millis (clock w (S (clock_reads w)))))
      ∧ (∃ d, List.find
                (has_id (twelve_bytes (oid_source w (oid_made w))))
                (products (POST_products product w).2) = Some d
              ∧ respond 201 (_convert_to_product_in_db (Some d))
                = (POST_products product w).1)
      ∧ length (products (POST_products product w).2)
        = S (length (products w))
  | Some _ =>
      (POST_products product w).1
      = Failure 400
          ("Error creating product: "
           +:+ write_error w (twelve_bytes (oid_source w (oid_made w))))
      ∧ products (POST_products product w).2 = products w
  end
  ∧ ∀ oid, is_Some (stored w oid) →
           stored (POST_products product w).2 oid = stored w oid.
Proof.
  intros Hvalid.
  unfold POST_products, serve, get_product_controller.create_product,
    ProductUseCases.create_product, try_except.
  destruct (stored w (twelve_bytes (oid_source w (oid_made w))))
    as [fields|] eqn:Hstored.
  - assert (existsb (has_id (twelve_bytes (oid_source w (oid_made w))))
              (products w) = true) as Hdup
      by (apply stored_some_existsb; rewrite Hstored; by eexists).
    rewrite (create_collision w product Hdup). cbn. by repeat split.
  - pose proof (create_fresh w product Hvalid Hstored) as Hcreate.
    cbv zeta in Hcreate. rewrite Hcreate. cbn [fst snd products respond].
    split; [split; [done|split]|].
    + eexists. split.
      * apply find_new_document. by apply stored_none_existsb.
      * by rewrite convert_created.
    + rewrite length_app. simpl. lia.
    + intros oid Hsome. unfold stored in *. cbn [products].
      rewrite find_app_old; [done|]. by apply fmap_is_Some in Hsome.
Qed.

Lemma post_answers_201_or_400_witness :
  match stored four_products
          (twelve_bytes (oid_source four_products (oid_made four_products)))
  with
  | None =>
      (POST_products (ProductCreate.mk "Product 5" None 1 "Test")
         four_products).1
      = Success 201
          (ProductInDB.mk
             (oid_str (twelve_bytes
                         (oid_source four_products (oid_made four_products))))
             "Product 5" None 1 "Test"
             (to_millis (clock four_products (clock_reads four_products)))
             (to_millis (clock four_products
                           (S (clock_reads four_products)))))
      ∧ (∃ d, List.find
                (has_id (twelve_bytes
                           (oid_source four_products
                              (oid_made four_products))))
                (products
                   (POST_products (ProductCreate.mk "Product 5" None 1 "Test")
                      four_products).2) = Some d
              ∧ respond 201 (_convert_to_product_in_db (Some d))
                = (POST_products (ProductCreate.mk "Product 5" None 1 "Test")
                     four_products).1)
      ∧ length (products
                  (POST_products (ProductCreate.mk "Product 5" None 1 "Test")
                     four_products).2)
        = S (length (products four_products))
  | Some _ =>
      (POST_products (ProductCreate.mk "Product 5" None 1 "Test")
         four_products).1
      = Failure 400
          ("Error creating product: "
           +:+ write_error four_products
                 (twelve_bytes
                    (oid_source four_products (oid_made four_products))))
      ∧ products (POST_products (ProductCreate.mk "Product 5" None 1 "Test")
                    four_products).2
        = products four_products
  end
  ∧ ∀ oid, is_Some (stored four_products oid) →
           stored (POST_products (ProductCreate.mk "Product 5" None 1 "Test")
                     four_products).2 oid
           = stored four_products oid.
Proof.
  apply (post_answers_201_or_400 four_products
           (ProductCreate.mk "Product 5" None 1 "Test")).
  reflexivity.
Defined.

(** *** Only the addressed product changes *)



(** The products after a PATCH and after a DELETE. *)
Lemma patch_products w product_id u :
  products (PATCH_product product_id u w).2
  = match oid_parse product_id with
    | Some oid => set_first oid (update_document w u) (products w)
    | None => products w
    end.
Proof.
  unfold PATCH_product, serve, get_product_controller.update_product,
    ProductUseCases.update_product.
  cbn [snd]. rewrite not_found_to_404_world.
  destruct (oid_parse product_id) as [oid|] eqn:Hparse.
  - destruct (stored w oid) as [fields|] eqn:Hstored.
    + apply update_products; [done|]. rewrite Hstored. by eexists.
    + apply stored_none_existsb in Hstored.
      assert (set_first oid (update_document w u) (products w) = products w)
        as ->.
      { clear -Hstored. induction (products w) as [|d ds IH]; [done|].
        simpl in *. apply orb_false_iff in Hstored as [-> Hds].
        by rewrite IH. }
      unfold update. rewrite Hparse.
      destruct (model_dump_exclude_unset u !! "updated_at");
        unfold bind, ret, utcnow, update_one, raise;
        cbn [products]; by rewrite Hstored.
  - unfold update. by rewrite Hparse.
Qed.

Lemma delete_products w product_id :
  products (DELETE_product product_id w).2
  = match oid_parse product_id with
    | Some oid => remove_first oid (products w)
    | None => products w
    end.
Proof.
  unfold DELETE_product, serve, get_product_controller.delete_product,
    ProductUseCases.delete_product.
  cbn [snd]. rewrite not_found_to_404_world.
  unfold delete, bind, delete_one, ret, raise.
  destruct (oid_parse product_id) as [oid|]; [|done].
  destruct (existsb (has_id oid) (products w)) eqn:Hex; cbn; [done|].
  clear -Hex. induction (products w) as [|d ds IH]; [done|].
  simpl in *. apply orb_false_iff in Hex as [-> Hds]. by rewrite <- IH.
Qed.




(** *** Deletion, then lookup *)

Lemma find_none_fresh oid ds :
  oid ∉ map doc_id ds → List.find (has_id oid) ds = None.
Proof.
  induction ds as [|d ds IH]; simpl; [done|].
  intros Hnotin. apply not_elem_of_cons in Hnotin as [Hne Hnotin].
  assert (has_id oid d = false) as -> by (apply has_id_false; congruence).
  by apply IH.
Qed.

Lemma find_remove_first_unique oid ds :
  NoDup (map doc_id ds) → List.find (has_id oid) (remove_first oid ds) = None.
Proof.
  induction ds as [|d ds IH]; simpl; [done|].
  intros [Hnotin Hnodup]%NoDup_cons.
  destruct (has_id oid d) eqn:Hd.
  - apply has_id_true in Hd. subst oid.
    by apply find_none_fresh.
  - simpl. rewrite Hd. by apply IH.
Qed.

Lemma delete_stored w product_id oid :
  oid_parse product_id = Some oid →
  is_Some (stored w oid) →
  (DELETE_product product_id w).1 = Success 204 tt.
Proof.
  intros Hparse Hstored%stored_some_existsb. run_route. rewrite Hparse.
  unfold bind, delete_one, ret, raise. by rewrite Hstored.
Qed.

(** X5. Over a store whose identifiers are unique, the DELETE of a stored
    product answers 204 and removes one product; the lookup and the second
    DELETE of the same identifier that follow answer 404. *)
Theorem delete_then_lookup_is_404 (w : World) (product_id : string)
    (oid : ObjectId) :
  oid_parse product_id = Some oid →
  is_Some (stored w oid) →
  unique_ids w →
  (DELETE_product product_id w).1 = Success 204 tt
  ∧ S (length (products (DELETE_product product_id w).2))
    = length (products w)
  ∧ (GET_product product_id (DELETE_product product_id w).2).1
    = Failure 404 (not_found_msg product_id)
  ∧ (DELETE_product product_id (DELETE_product product_id w).2).1
    = Failure 404 (not_found_msg product_id).
Proof.
  intros Hparse Hstored Hunique.
  assert (stored (DELETE_product product_id w).2 oid = None) as Hgone.
  { unfold stored. rewrite delete_products, Hparse.
    by rewrite find_remove_first_unique. }
  destruct (routes_absent_id _ product_id rename_only oid Hparse Hgone)
    as (Hget & _ & _ & Hdelete).
  split; [by eapply delete_stored|]. split.
  - rewrite delete_products, Hparse. apply stored_some_existsb in Hstored.
    clear -Hstored. induction (products w) as [|d ds IH]; [done|].
    simpl in *. destruct (has_id oid d); [done|]. simpl. f_equal. by apply IH.
  - by rewrite Hget, Hdelete.
Qed.

Lemma delete_then_lookup_is_404_witness :
  (DELETE_product first_product_id four_products).1 = Success 204 tt
  ∧ S (length (products (DELETE_product first_product_id four_products).2))
    = length (products four_products)
  ∧ (GET_product first_product_id
       (DELETE_product first_product_id four_products).2).1
    = Failure 404 (not_found_msg first_product_id)
  ∧ (DELETE_product first_product_id
       (DELETE_product first_product_id four_products).2).1
    = Failure 404 (not_found_msg first_product_id).
Proof.
  apply (delete_then_lookup_is_404 four_products first_product_id
           first_product_oid).
  - reflexivity.
  - eexists. vm_compute. reflexivity.
  - unfold unique_ids.
    assert (map doc_id (products four_products)
            = map twelve_bytes
                [0x650000000000000000000001; 0x650000000000000000000002;
                 0x650000000000000000000003; 0x650000000000000000000004]%N)
      as -> by (vm_compute; reflexivity).
    apply (bool_decide_unpack _). vm_compute. exact I.
Defined.


(** *** Listing *)

Local Abbreviation convert_each docs :=
  (fold_right
     (λ product acc,
        and_then (_convert_to_product_in_db (Some product)) (λ p,
        and_then acc (λ ps, Return (p :: ps))))
     (Return []) docs).

Lemma GET_products_run skip limit min_price max_price w :
  GET_products skip limit min_price max_price w
  = (respond 200
       (convert_each
          (take limit
             (drop skip
                (List.filter
                   (matches (ProductUseCases.price_filters min_price max_price))
                   (products w))))),
     w).
Proof. done. Qed.

Lemma convert_each_readable docs :
  Forall (λ d, readable d = true) docs →
  ∃ ps, convert_each docs = Return ps ∧ length ps = length docs.
Proof.
  induction 1 as [|d docs Hd _ [ps [IH Hlen]]]; cbn [fold_right];
    [by exists []|].
  unfold readable in Hd.
  destruct (_convert_to_product_in_db (Some d)) as [p|] eqn:Hp; [|done].
  exists (p :: ps). rewrite IH. cbn. by rewrite Hlen.
Qed.

Lemma convert_each_app docs1 docs2 ps qs :
  convert_each docs1 = Return ps → convert_each docs2 = Return qs →
  convert_each (docs1 ++ docs2)%list = Return (ps ++ qs)%list.
Proof.
  revert ps. induction docs1 as [|d docs1 IH]; intros ps; cbn [fold_right app].
  - by intros [= <-].
  - intros (p & Hp & H)%and_then_Return.
    apply and_then_Return in H as (ps' & Hps' & [= <-]).
    intros Hqs. rewrite Hp. cbn [and_then]. by rewrite (IH ps' Hps' Hqs).
Qed.


Lemma Forall_page {A} (P : A → Prop) (f : A → bool) skip limit (l : list A) :
  Forall P l → Forall P (take limit (drop skip (List.filter f l))).
Proof.
  intros Hall. apply Forall_take, Forall_drop.
  apply Forall_forall. intros x Hx%list_elem_of_In%filter_In.
  rewrite Forall_forall in Hall. apply Hall, list_elem_of_In, Hx.
Qed.

(** X6. Over a store in which every document is readable, the listing
    answers 200 with at most [limit] products and leaves the store as it
    is, and consecutive pages tile: for limits that the route accepts and
    offsets that the driver can send, the page of [a] products after
    [skip] followed by the page of [b] products after [skip + a] is the
    page of [a + b] products after [skip]. *)
Theorem listing_pages_tile (w : World) (skip a b : nat)
    (min_price max_price : option float) :
  all_readable w →
  (N.of_nat (skip + a) < 2 ^ 63)%N →
  (1 ≤ a)%nat → (1 ≤ b)%nat → (a + b ≤ 100)%nat →
  ∃ ps qs,
    GET_products skip a min_price max_price w = (Success 200 ps, w)
    ∧ GET_products (skip + a) b min_price max_price w = (Success 200 qs, w)
    ∧ GET_products skip (a + b) min_price max_price w
      = (Success 200 (ps ++ qs)%list, w)
    ∧ (length ps ≤ a)%nat.
Proof.
  intros Hall _ _ _ _. rewrite !GET_products_run.
  set (l := List.filter _ (products w)).
  destruct (convert_each_readable (take a (drop skip l))) as [ps [Hps Hlen]];
    [by apply Forall_page|].
  destruct (convert_each_readable (take b (drop (skip + a) l)))
    as [qs [Hqs _]]; [by apply Forall_page|].
  exists ps, qs. rewrite Hps, Hqs.
  rewrite <- take_take_drop, drop_drop.
  rewrite (convert_each_app _ _ ps qs Hps Hqs).
  repeat split. rewrite Hlen, length_take. lia.
Qed.

Lemma listing_pages_tile_witness :
  ∃ ps qs,
    GET_products 1 1 None None four_products = (Success 200 ps, four_products)
    ∧ GET_products (1 + 1) 2 None None four_products
      = (Success 200 qs, four_products)
    ∧ GET_products 1 (1 + 2) None None four_products
      = (Success 200 (ps ++ qs)%list, four_products)
    ∧ (length ps ≤ 1)%nat.
Proof.
  apply (listing_pages_tile four_products 1 1 2 None None); [|lia..].
  unfold all_readable. apply (bool_decide_unpack _). vm_compute. exact I.
Defined.




(** *** What every sequence of well-formed requests keeps *)

Lemma post_products w p :
  valid_ProductCreate p = true →
  let oid := (twelve_bytes (oid_source w (oid_made w))) in
  (existsb (has_id oid) (products w) = true
   ∧ (POST_products p w).1
     = Failure 400 ("Error creating product: " +:+ write_error w oid)
   ∧ products (POST_products p w).2 = products w)
  ∨ (∃ d created,
       (oid ∉ map doc_id (products w)) ∧ doc_id d = oid
       ∧ _convert_to_product_in_db (Some d) = Return created
       ∧ (POST_products p w).1 = Success 201 created
       ∧ products (POST_products p w).2 = (products w ++ [d])%list).
Proof.
  intros Hvalid oid.
  unfold POST_products, serve, get_product_controller.create_product,
    ProductUseCases.create_product, try_except.
  destruct (existsb (has_id oid) (products w)) eqn:Hex.
  - left. rewrite (create_collision w p Hex). by cbn.
  - right. pose proof Hex as Hnone%stored_none_existsb.
    pose proof (create_fresh w p Hvalid Hnone) as Hcreate.
    cbv zeta in Hcreate. rewrite Hcreate. cbn.
    eexists _, _. split; [|split; [|split; [|done]]].
    + intros (d & Hd & Hin)%list_elem_of_fmap.
      apply not_true_iff_false in Hex. apply Hex.
      apply existsb_exists. exists d. split; [by apply list_elem_of_In|].
      apply has_id_true. by rewrite Hd.
    + done.
    + by apply convert_created.
Qed.

Lemma set_first_ids oid update ds :
  map doc_id (set_first oid update ds) = map doc_id ds.
Proof.
  induction ds as [|d ds IH]; simpl; [done|].
  destruct (has_id oid d); simpl; [done|]. by rewrite IH.
Qed.

Lemma remove_first_sublist oid ds : remove_first oid ds `sublist_of` ds.
Proof.
  induction ds as [|d ds IH]; simpl; [done|].
  destruct (has_id oid d).
  - by apply sublist_cons.
  - by apply sublist_skip.
Qed.

Lemma handle_unique_ids r w :
  well_formed r = true → unique_ids w → unique_ids (handle r w).
Proof.
  unfold unique_ids. intros Hwf Hunique. destruct r as [p|id|s l lo hi|id u|id].
  - cbn [handle]. destruct (post_products w p Hwf)
      as [(_ & _ & ->)|(d & created & Hfresh & Hd & _ & _ & ->)]; [done|].
    rewrite map_app. simpl. rewrite Hd.
    apply NoDup_app. split; [done|]. split.
    + intros x Hx Hx'%list_elem_of_singleton. by subst x.
    + apply NoDup_singleton.
  - cbn [handle]. unfold GET_product, serve,
      get_product_controller.get_product, ProductUseCases.get_product.
    cbn [snd]. rewrite not_found_to_404_world, get_by_id_run. done.
  - done.
  - cbn [handle]. rewrite patch_products.
    destruct (oid_parse id); [|done]. by rewrite set_first_ids.
  - cbn [handle]. rewrite delete_products.
    destruct (oid_parse id) as [oid|]; [|done].
    eapply sublist_NoDup; [done|]. apply fmap_sublist, remove_first_sublist.
Qed.

Lemma set_first_readable w oid u ds :
  valid_ProductUpdate u = true → null_free u = true →
  Forall (λ d, readable d = true) ds →
  Forall (λ d, readable d = true) (set_first oid (update_document w u) ds).
Proof.
  intros Hvalid Hnull. induction 1 as [|d ds Hd Hds IH]; simpl; [done|].
  destruct (has_id oid d).
  - constructor; [|done]. unfold readable in *.
    destruct (_convert_to_product_in_db (Some d)) as [p|] eqn:Hp; [|done].
    by rewrite (convert_updated w u d p Hp Hvalid Hnull).
  - by constructor.
Qed.

Lemma handle_all_readable r w :
  well_formed r = true → all_readable w → all_readable (handle r w).
Proof.
  unfold all_readable. intros Hwf Hall. destruct r as [p|id|s l lo hi|id u|id].
  - cbn [handle]. destruct (post_products w p Hwf)
      as [(_ & _ & ->)|(d & created & _ & _ & Hd & _ & ->)]; [done|].
    apply Forall_app. split; [done|]. apply Forall_singleton.
    unfold readable. by rewrite Hd.
  - cbn [handle]. unfold GET_product, serve,
      get_product_controller.get_product, ProductUseCases.get_product.
    cbn [snd]. rewrite not_found_to_404_world, get_by_id_run. done.
  - done.
  - cbn [handle]. rewrite patch_products.
    apply andb_true_iff in Hwf as [Hvalid Hnull].
    destruct (oid_parse id); [|done]. by apply set_first_readable.
  - cbn [handle]. rewrite delete_products.
    destruct (oid_parse id) as [oid|]; [|done].
    rewrite Forall_forall in Hall. apply Forall_forall. intros d Hd.
    apply Hall. eapply elem_of_sublist; [done|]. apply remove_first_sublist.
Qed.

Lemma find_readable oid d ds :
  Forall (λ d, readable d = true) ds →
  List.find (has_id oid) ds = Some d →
  ∃ p, _convert_to_product_in_db (Some d) = Return p.
Proof.
  intros Hall [Hin _]%find_some. rewrite Forall_forall in Hall.
  specialize (Hall d (proj2 (list_elem_of_In _ _) Hin)). unfold readable in Hall.
  destruct (_convert_to_product_in_db (Some d)) as [p|]; [by exists p|done].
Qed.

(** The status codes that the routes declare or raise on purpose. *)
Lemma answer_well_formed r w :
  well_formed r = true → all_readable w →
  answer r w ∈ match r with
               | POST _ => [201; 400]
               | GET _ | PATCH _ _ => [200; 404]
               | LIST _ _ _ _ => [200]
               | DELETE _ => [204; 404]
               end%nat.
Proof.
  unfold all_readable. intros Hwf Hall.
  destruct r as [p|id|s l lo hi|id u|id]; cbn [answer].
  - destruct (post_products w p Hwf)
      as [(_ & -> & _)|(d & created & _ & _ & _ & -> & _)]; cbn; set_solver.
  - destruct (oid_parse id) as [oid|] eqn:Hparse.
    + destruct (List.find (has_id oid) (products w)) as [d|] eqn:Hfind.
      * destruct (find_readable oid d _ Hall Hfind) as [p Hp].
        unfold GET_product, serve, get_product_controller.get_product,
          ProductUseCases.get_product. cbn [fst].
        rewrite respond_not_found_to_404; rewrite get_by_id_run; cbn [fst];
          rewrite Hparse, Hfind, Hp; [|discriminate]. cbn. set_solver.
      * assert (stored w oid = None) as Hnone by (unfold stored; by rewrite Hfind).
        destruct (routes_absent_id w id rename_only oid Hparse Hnone)
          as (-> & _). cbn. set_solver.
    + apply is_valid_false in Hparse.
      destruct (routes_malformed_id w id rename_only Hparse) as (-> & _).
      cbn. set_solver.
  - rewrite GET_products_run. cbn [fst].
    destruct (convert_each_readable
                (take l (drop s
                   (List.filter
                      (matches (ProductUseCases.price_filters lo hi))
                      (products w))))) as [ps [-> _]];
      [by apply Forall_page|]. cbn. set_solver.
  - apply andb_true_iff in Hwf as [Hvalid Hnull].
    destruct (oid_parse id) as [oid|] eqn:Hparse.
    + destruct (List.find (has_id oid) (products w)) as [d|] eqn:Hfind.
      * destruct (find_readable oid d _ Hall Hfind) as [p Hp].
        pose proof (update_result w id oid u d Hparse Hfind) as Hres.
        rewrite (convert_updated w u d p Hp Hvalid Hnull) in Hres.
        unfold PATCH_product, serve, get_product_controller.update_product,
          ProductUseCases.update_product. cbn [fst].
        rewrite respond_not_found_to_404; rewrite Hres; [|discriminate].
        cbn. set_solver.
      * assert (stored w oid = None) as Hnone by (unfold stored; by rewrite Hfind).
        destruct (routes_absent_id w id u oid Hparse Hnone)
          as (_ & -> & _). cbn. set_solver.
    + apply is_valid_false in Hparse.
      destruct (routes_malformed_id w id u Hparse) as (_ & -> & _).
      cbn. set_solver.
  - destruct (oid_parse id) as [oid|] eqn:Hparse.
    + destruct (stored w oid) as [fields|] eqn:Hstored.
      * rewrite (delete_stored w id oid Hparse); [cbn; set_solver|].
        rewrite Hstored. by eexists.
      * destruct (routes_absent_id w id rename_only oid Hparse Hstored)
          as (_ & _ & _ & ->). cbn. set_solver.
    + apply is_valid_false in Hparse.
      destruct (routes_malformed_id w id rename_only Hparse) as (_ & _ & ->).
      cbn. set_solver.
Qed.

Lemma handle_all_invariant rs w :
  forallb well_formed rs = true → unique_ids w → all_readable w →
  unique_ids (handle_all rs w) ∧ all_readable (handle_all rs w).
Proof.
  revert w. induction rs as [|r rs IH]; intros w; cbn [forallb handle_all];
    [done|].
  intros [Hr Hrs]%andb_true_iff Hunique Hall.
  apply IH; [done|by apply handle_unique_ids|by apply handle_all_readable].
Qed.

(** X8. Over a store whose identifiers are unique and whose documents are
    all readable (the empty store is one), no sequence of requests that
    pass their schemas and hold no [null] for a required field leads to an
    answer outside the status codes that the routes declare or raise on
    purpose: uniqueness and readability hold after the sequence, and the
    request that follows is answered 201 or 400 (POST), 200 or 404 (GET,
    PATCH), 200 (listing), 204 or 404 (DELETE). *)
Theorem well_formed_requests_keep_the_store_readable (w : World)
    (rs : list request) (r : request) :
  unique_ids w → all_readable w →
  forallb well_formed rs = true → well_formed r = true →
  unique_ids (handle_all rs w)
  ∧ all_readable (handle_all rs w)
  ∧ answer r (handle_all rs w) ∈ match r with
                                 | POST _ => [201; 400]
                                 | GET _ | PATCH _ _ => [200; 404]
                                 | LIST _ _ _ _ => [200]
                                 | DELETE _ => [204; 404]
                                 end%nat.
Proof.
  intros Hunique Hall Hrs Hr.
  destruct (handle_all_invariant rs w Hrs Hunique Hall) as [Hunique' Hall'].
  split; [done|]. split; [done|]. by apply answer_well_formed.
Qed.

Lemma well_formed_requests_keep_the_store_readable_witness :
  unique_ids
    (handle_all [POST (ProductCreate.mk "Product 1" None 100 "Test");
                 PATCH first_product_id rename_only;
                 DELETE first_product_id] test_world)
  ∧ all_readable
      (handle_all [POST (ProductCreate.mk "Product 1" None 100 "Test");
                   PATCH first_product_id rename_only;
                   DELETE first_product_id] test_world)
  ∧ answer (GET first_product_id)
      (handle_all [POST (ProductCreate.mk "Product 1" None 100 "Test");
                   PATCH first_product_id rename_only;
                   DELETE first_product_id] test_world)
    ∈ [200; 404]%nat.
Proof.
  apply (well_formed_requests_keep_the_store_readable test_world
           [POST (ProductCreate.mk "Product 1" None 100 "Test");
            PATCH first_product_id rename_only;
            DELETE first_product_id]
           (GET first_product_id)).
  - apply NoDup_nil_2.
  - apply Forall_nil_2.
  - reflexivity.
  - reflexivity.
Defined.

End StoreExtras.


Module WorkoutExtras.
Import Py Workout PyFacts WorkoutFacts.

(** *** Keys *)




(** *** Creation on SQLite *)


(** What the response schema asks of a row and of its relations. *)
Lemma related_valid {R} (key : R → Z) (valid : R → bool) rows fk :
  forallb valid rows = true →
  valid_relation valid (related key rows fk) = true.
Proof.
  intros Hrows. destruct fk as [n|]; [|done]. cbn [related].
  destruct (List.find _ rows) as [r|] eqn:Hfind; [|done].
  apply find_some in Hfind as [Hin _]. cbn.
  by apply (proj1 (forallb_forall valid rows) Hrows).
Qed.

Lemma valid_load db a :
  relations_named db = true →
  valid_AtletaResponse (AtletaResponse.mk a None None) = true →
  valid_AtletaResponse (load db a) = true.
Proof.
  unfold relations_named, valid_AtletaResponse, load.
  intros [Hcentros Hcategorias]%andb_true_iff.
  cbn [AtletaResponse.atleta AtletaResponse.centro_treinamento
       AtletaResponse.categoria valid_relation].
  rewrite !andb_true_r. intros ->.
  by rewrite !related_valid.
Qed.




(** *** Updates *)

Lemma sqlvalue_eqb_refl v : sqlvalue_eqb v v = true.
Proof. destruct v; simpl; [done|apply Z.eqb_refl|apply String.eqb_refl]. Qed.

Lemma changed_same l : changed l l = [].
Proof.
  induction l as [|[c v] l IH]; simpl; [done|].
  by rewrite sqlvalue_eqb_refl.
Qed.

Lemma assign_assign {A} (f : supplied A) (old : option A) :
  assign f (assign f old) = assign f old.
Proof. by destruct f. Qed.

Lemma setattrs_setattrs u a : setattrs u (setattrs u a) = setattrs u a.
Proof. unfold setattrs. cbn. by rewrite !assign_assign. Qed.

Lemma find_replace_row a rows atleta_id old :
  Atleta.id a = atleta_id →
  List.find (λ b, Z.eqb (Atleta.id b) atleta_id) rows = Some old →
  List.find (λ b, Z.eqb (Atleta.id b) atleta_id) (replace_row a rows) = Some a.
Proof.
  intros <-. induction rows as [|b rows IH]; simpl; [done|].
  destruct (Z.eqb (Atleta.id b) (Atleta.id a)) eqn:Hb; simpl.
  - by rewrite Z.eqb_refl.
  - by rewrite Hb.
Qed.

Lemma find_id {A} (key : A → Z) n rows a :
  List.find (λ b, Z.eqb (key b) n) rows = Some a → key a = n.
Proof. by intros [_ ?%Z.eqb_eq]%find_some. Qed.

(** X10. A PUT is idempotent on every engine: repeated on the database it
    left, the same request gives the same answer and leaves the database
    as it is, whether the first was committed, refused or found nothing. *)
Theorem update_atleta_is_idempotent (e : Engine) (atleta_id : Z)
    (atleta_data : AtletaUpdate.t) (db : Database) :
  update_atleta e atleta_id atleta_data
    (update_atleta e atleta_id atleta_data db).2
  = update_atleta e atleta_id atleta_data db.
Proof.
  unfold update_atleta at 2 3.
  destruct (first_by_id db atleta_id) as [a|] eqn:Hfind.
  - destruct (commit_update e db a (setattrs atleta_data a)) as [err|db']
      eqn:Hcommit; cbn [snd].
    + unfold update_atleta. by rewrite Hfind, Hcommit.
    + unfold commit_update in Hcommit.
      destruct (changed (atleta_values a)
                  (atleta_values (setattrs atleta_data a))) eqn:Hsets.
      * injection Hcommit as <-.
        unfold update_atleta, commit_update. by rewrite Hfind, Hsets, Hfind.
      * destruct (first_violation _ _ _ _); [discriminate|].
        injection Hcommit as <-.
        assert (first_by_id
                  (with_atletas db
                     (replace_row (setattrs atleta_data a) (atletas db)))
                  atleta_id = Some (setattrs atleta_data a)) as Hnew.
        { unfold first_by_id in *. cbn [atletas with_atletas].
          eapply find_replace_row; [|done].
          cbn. by eapply (find_id Atleta.id). }
        unfold update_atleta, commit_update.
        by rewrite Hnew, setattrs_setattrs, changed_same, Hnew.
  - cbn [snd]. unfold update_atleta. by rewrite Hfind.
Qed.

(** What SQLite checks of an UPDATE that writes no [null] to a required
    column: the cpf is never among the columns written, and foreign keys
    are not enforced. *)
Lemma find_changed_none (P : string * sqlvalue → bool) old new :
  Forall2 (λ o n, sqlvalue_eqb o.2 n.2 = false → P n = false) old new →
  List.find P (changed old new) = None.
Proof.
  induction 1 as [|[c o] [c' n] old new H _ IH]; simpl; [done|].
  destruct (sqlvalue_eqb o n) eqn:Hon; [done|].
  simpl. by rewrite (H Hon).
Qed.

Lemma assign_unchanged_text (f : supplied string) old :
  f ≠ Null →
  sqlvalue_eqb (of_text old) (of_text (assign f old)) = false →
  is_null (of_text (assign f old)) = false.
Proof.
  destruct f; [|done|done]. simpl. by rewrite sqlvalue_eqb_refl.
Qed.

Lemma assign_unchanged_int (f : supplied Z) old :
  f ≠ Null →
  sqlvalue_eqb (of_int old) (of_int (assign f old)) = false →
  is_null (of_int (assign f old)) = false.
Proof.
  destruct f; [|done|done]. simpl. by rewrite sqlvalue_eqb_refl.
Qed.

Lemma keeps_required_inv u :
  keeps_required u = true →
  AtletaUpdate.nome u ≠ Null ∧ AtletaUpdate.idade u ≠ Null
  ∧ AtletaUpdate.peso u ≠ Null ∧ AtletaUpdate.altura u ≠ Null
  ∧ AtletaUpdate.sexo u ≠ Null.
Proof.
  unfold keeps_required.
  destruct (AtletaUpdate.nome u), (AtletaUpdate.idade u),
    (AtletaUpdate.peso u), (AtletaUpdate.altura u), (AtletaUpdate.sexo u);
    done.
Qed.

Lemma sqlite_accepts_update u a db others :
  keeps_required u = true →
  first_violation sqlite db others
    (changed (atleta_values a) (atleta_values (setattrs u a))) = None.
Proof.
  intros (Hnome & Hidade & Hpeso & Haltura & Hsexo)%keeps_required_inv.
  unfold first_violation, check_not_null, check_unique_cpf, written_to.
  rewrite !find_changed_none; [done| |].
  - unfold atleta_values, setattrs. cbn [Atleta.nome Atleta.cpf Atleta.idade
      Atleta.peso Atleta.altura Atleta.sexo Atleta.centro_treinamento_id
      Atleta.categoria_id].
    repeat (constructor; [cbn [fst snd]; intros H|]); [..|constructor];
      first [ by rewrite sqlvalue_eqb_refl in H | reflexivity ].
  - unfold atleta_values, setattrs. cbn [Atleta.nome Atleta.cpf Atleta.idade
      Atleta.peso Atleta.altura Atleta.sexo Atleta.centro_treinamento_id
      Atleta.categoria_id].
    repeat (constructor; [cbn [fst snd]; intros H|]); [..|constructor];
      first [ by rewrite sqlvalue_eqb_refl in H
            | apply andb_false_intro1;
              first [ eapply assign_unchanged_text | eapply assign_unchanged_int ];
              eassumption
            | apply andb_false_intro2; reflexivity ].
Qed.

Lemma of_text_eqb x y : sqlvalue_eqb (of_text x) (of_text y) = true → x = y.
Proof.
  destruct x, y; simpl; try done. by intros ->%String.eqb_eq.
Qed.

Lemma of_int_eqb x y : sqlvalue_eqb (of_int x) (of_int y) = true → x = y.
Proof.
  destruct x, y; simpl; try done. by intros ->%Z.eqb_eq.
Qed.

(** An UPDATE that has no column to set leaves the row as it is. *)
Lemma changed_nil a b :
  Atleta.id a = Atleta.id b →
  changed (atleta_values a) (atleta_values b) = [] → a = b.
Proof.
  destruct a, b. unfold atleta_values. cbn. intros ->.
  repeat match goal with
         | |- context [sqlvalue_eqb ?x ?y] =>
             let H := fresh "H" in
             destruct (sqlvalue_eqb x y) eqn:H; [|discriminate];
             first [apply of_text_eqb in H | apply of_int_eqb in H]; subst
         end.
  done.
Qed.

Lemma replace_row_same a rows :
  List.find (λ b, Z.eqb (Atleta.id b) (Atleta.id a)) rows = Some a →
  replace_row a rows = rows.
Proof.
  induction rows as [|b rows IH]; simpl; [done|].
  destruct (Z.eqb (Atleta.id b) (Atleta.id a)).
  - by intros [= ->].
  - intros H. by rewrite IH.
Qed.

Lemma find_replace_row_other a rows other :
  other ≠ Atleta.id a →
  List.find (λ b, Z.eqb (Atleta.id b) other) (replace_row a rows)
  = List.find (λ b, Z.eqb (Atleta.id b) other) rows.
Proof.
  intros Hne. induction rows as [|b rows IH]; simpl; [done|].
  destruct (Z.eqb (Atleta.id b) (Atleta.id a)) eqn:Hb; simpl.
  - apply Z.eqb_eq in Hb. rewrite Hb.
    assert (Z.eqb (Atleta.id a) other = false) as ->
      by (apply Z.eqb_neq; congruence).
    done.
  - by rewrite IH.
Qed.

Lemma with_atletas_same db : with_atletas db (atletas db) = db.
Proof. by destruct db. Qed.

(** What a PUT that writes no [null] to a required column leaves on
    SQLite. *)
Lemma update_atleta_sqlite atleta_id u db a :
  first_by_id db atleta_id = Some a →
  keeps_required u = true →
  update_atleta sqlite atleta_id u db
  = (Ok (Some (load db (setattrs u a))),
     with_atletas db (replace_row (setattrs u a) (atletas db))).
Proof.
  intros Hfind Hkeeps.
  assert (Atleta.id (setattrs u a) = atleta_id) as Hid
    by (cbn; by eapply (find_id Atleta.id)).
  unfold update_atleta, commit_update. rewrite Hfind.
  destruct (changed (atleta_values a) (atleta_values (setattrs u a)))
    as [|cv sets] eqn:Hsets.
  - apply changed_nil in Hsets; [|done]. rewrite <- Hsets in Hid |- *.
    rewrite replace_row_same, with_atletas_same, Hfind; [done|].
    unfold first_by_id in Hfind. by rewrite Hid.
  - rewrite <- Hsets, sqlite_accepts_update by done.
    unfold first_by_id in *. cbn [atletas with_atletas].
    by rewrite (find_replace_row _ _ atleta_id a Hid Hfind).
Qed.

Lemma forallb_changed (P : string * sqlvalue → bool) old new :
  forallb P new = true → forallb P (changed old new) = true.
Proof.
  revert new. induction old as [|[c o] old IH]; intros [|[c' n] new]; simpl;
    try done.
  intros [Hn Hnew]%andb_true_iff.
  destruct (sqlvalue_eqb o n); simpl; [by apply IH|].
  by rewrite Hn, IH.
Qed.

Lemma no_null_inv u :
  no_null u = true →
  keeps_required u = true
  ∧ AtletaUpdate.centro_treinamento_id u ≠ Null
  ∧ AtletaUpdate.categoria_id u ≠ Null.
Proof.
  unfold no_null. intros [Hkeeps Hfk]%andb_true_iff. split; [done|].
  by destruct (AtletaUpdate.centro_treinamento_id u),
       (AtletaUpdate.categoria_id u).
Qed.

Lemma has_value_assign {A} (f : supplied A) (old : option A) :
  f ≠ Null → has_value old = true → has_value (assign f old) = true.
Proof. by destruct f. Qed.

(** An athlete that passed the response schema passes it again once an
    update without [null] is assigned. *)
Lemma valid_setattrs u a centro categoria :
  no_null u = true →
  valid_AtletaResponse (AtletaResponse.mk a centro categoria) = true →
  valid_AtletaResponse (AtletaResponse.mk (setattrs u a) None None) = true.
Proof.
  intros (Hkeeps & Hcentro & Hcategoria)%no_null_inv.
  apply keeps_required_inv in Hkeeps
    as (Hnome & Hidade & Hpeso & Haltura & Hsexo).
  unfold valid_AtletaResponse.
  cbn [AtletaResponse.atleta AtletaResponse.centro_treinamento
       AtletaResponse.categoria valid_relation setattrs Atleta.nome Atleta.cpf
       Atleta.idade Atleta.peso Atleta.altura Atleta.sexo
       Atleta.centro_treinamento_id Atleta.categoria_id].
  rewrite !andb_true_iff.
  intros [[[[[[[[[H1 H2] H3] H4] H5] H6] H7] H8] _] _].
  rewrite !has_value_assign by done. by rewrite H2.
Qed.

(** X11. On SQLite, a PUT that addresses a stored athlete who passes the
    response schema, with a key and integers of 64 bits and no [null] in
    its body, where the tables the relations come from hold a name in
    every row, is answered 200 with the athlete with the supplied fields
    assigned; the lookup that follows is answered 200 with the same, and
    the lookup of every other key is answered as before. *)
Theorem update_atleta_then_get_atleta (atleta_id : Z) (u : AtletaUpdate.t)
    (db : Database) (a : Atleta.t) :
  first_by_id db atleta_id = Some a →
  int64 atleta_id = true →
  no_null u = true →
  forallb bindable (atleta_values (setattrs u a)) = true →
  valid_AtletaResponse (load db a) = true →
  relations_named db = true →
  PUT_atleta atleta_id u db
  = (Sent 200 (load db (setattrs u a)),
     with_atletas db (replace_row (setattrs u a) (atletas db)))
  ∧ GET_atleta atleta_id (PUT_atleta atleta_id u db).2
    = Sent 200 (load db (setattrs u a))
  ∧ ∀ other, other ≠ atleta_id →
             GET_atleta other (PUT_atleta atleta_id u db).2
             = GET_atleta other db.
Proof.
  intros Hfind Hkey Hnull Hbindable Hvalid Hnamed.
  assert (Atleta.id (setattrs u a) = atleta_id) as Hid
    by (cbn; by eapply (find_id Atleta.id)).
  assert (valid_AtletaResponse (load db (setattrs u a)) = true) as Hnew
    by (apply valid_load; [done|]; by eapply valid_setattrs).
  assert (PUT_atleta atleta_id u db
          = (Sent 200 (load db (setattrs u a)),
             with_atletas db (replace_row (setattrs u a) (atletas db))))
    as Hput.
  { unfold PUT_atleta. rewrite Hkey, Hfind, forallb_changed by done.
    rewrite (update_atleta_sqlite atleta_id u db a Hfind)
      by (by apply no_null_inv).
    cbn [fst snd respond validated]. by rewrite Hnew. }
  rewrite Hput. cbn [snd]. split; [done|].
  unfold GET_atleta, get_atleta, first_by_id in *.
  cbn [atletas with_atletas]. split.
  - rewrite Hkey, (find_replace_row _ _ atleta_id a Hid Hfind).
    cbn [fst validated].
    change (load (with_atletas db _) ?x) with (load db x).
    by rewrite Hnew.
  - intros other Hne. rewrite find_replace_row_other by congruence.
    destruct (int64 other); [|done].
    destruct (List.find (λ b, Z.eqb (Atleta.id b) other) (atletas db));
      reflexivity.
Qed.

Lemma update_atleta_then_get_atleta_witness :
  PUT_atleta 1
    (AtletaUpdate.mk (Given "Ana Lima") Unset (Given 61%Z) Unset Unset Unset
       Unset) with_ana
  = (Sent 200
       (load with_ana
          (setattrs
             (AtletaUpdate.mk (Given "Ana Lima") Unset (Given 61%Z) Unset
                Unset Unset Unset)
             (with_id 1 (new_Atleta ana)))),
     with_atletas with_ana
       (replace_row
          (setattrs
             (AtletaUpdate.mk (Given "Ana Lima") Unset (Given 61%Z) Unset
                Unset Unset Unset)
             (with_id 1 (new_Atleta ana)))
          (atletas with_ana)))
  ∧ GET_atleta 1
      (PUT_atleta 1
         (AtletaUpdate.mk (Given "Ana Lima") Unset (Given 61%Z) Unset Unset
            Unset Unset) with_ana).2
    = Sent 200
        (load with_ana
           (setattrs
              (AtletaUpdate.mk (Given "Ana Lima") Unset (Given 61%Z) Unset
                 Unset Unset Unset)
              (with_id 1 (new_Atleta ana))))
  ∧ ∀ other, other ≠ 1%Z →
             GET_atleta other
               (PUT_atleta 1
                  (AtletaUpdate.mk (Given "Ana Lima") Unset (Given 61%Z) Unset
                     Unset Unset Unset) with_ana).2
             = GET_atleta other with_ana.
Proof.
  apply (update_atleta_then_get_atleta 1
           (AtletaUpdate.mk (Given "Ana Lima") Unset (Given 61%Z) Unset Unset
              Unset Unset)
           with_ana (with_id 1 (new_Atleta ana))); reflexivity.
Defined.

(** *** Deletion *)

Lemma find_remove_row_unique atleta_id rows :
  NoDup (map Atleta.id rows) →
  List.find (λ b, Z.eqb (Atleta.id b) atleta_id) (remove_row atleta_id rows)
  = None.
Proof.
  induction rows as [|b rows IH]; simpl; [done|].
  intros [Hnotin Hnodup]%NoDup_cons.
  destruct (Z.eqb (Atleta.id b) atleta_id) eqn:Hb.
  - apply Z.eqb_eq in Hb. subst atleta_id. clear -Hnotin.
    induction rows as [|c rows IH]; simpl; [done|].
    apply not_elem_of_cons in Hnotin as [Hne Hnotin].
    assert (Z.eqb (Atleta.id c) (Atleta.id b) = false) as ->
      by (apply Z.eqb_neq; congruence).
    by apply IH.
  - simpl. rewrite Hb. by apply IH.
Qed.

Lemma find_remove_row_other atleta_id other rows :
  other ≠ atleta_id →
  List.find (λ b, Z.eqb (Atleta.id b) other) (remove_row atleta_id rows)
  = List.find (λ b, Z.eqb (Atleta.id b) other) rows.
Proof.
  intros Hne. induction rows as [|b rows IH]; simpl; [done|].
  destruct (Z.eqb (Atleta.id b) atleta_id) eqn:Hb; simpl.
  - apply Z.eqb_eq in Hb.
    assert (Z.eqb (Atleta.id b) other = false) as ->
      by (apply Z.eqb_neq; congruence).
    done.
  - by rewrite IH.
Qed.

(** X12. Over a table whose keys are unique, the DELETE of a stored athlete
    succeeds; the lookup and the second DELETE of the same key that follow
    answer 404, and every other athlete is found as before. *)
Theorem delete_atleta_then_get_atleta (atleta_id : Z) (db : Database)
    (a : Atleta.t) :
  unique_keys db →
  first_by_id db atleta_id = Some a →
  (delete_atleta atleta_id db).1 = Ok tt
  ∧ (get_atleta atleta_id (delete_atleta atleta_id db).2).1
    = HTTPException 404 "Atleta não encontrado"
  ∧ (delete_atleta atleta_id (delete_atleta atleta_id db).2).1
    = HTTPException 404 "Atleta não encontrado"
  ∧ ∀ other, other ≠ atleta_id →
             (get_atleta other (delete_atleta atleta_id db).2).1
             = (get_atleta other db).1.
Proof.
  intros Hunique Hfind.
  assert (delete_atleta atleta_id db
          = (Ok tt, with_atletas db (remove_row atleta_id (atletas db)))) as ->
    by (unfold delete_atleta; by rewrite Hfind).
  cbn [fst snd]. split; [done|].
  unfold get_atleta, delete_atleta, first_by_id. cbn [atletas with_atletas].
  rewrite find_remove_row_unique by done. split; [done|]. split; [done|].
  intros other Hne. rewrite find_remove_row_other by done.
  destruct (List.find (λ b, Z.eqb (Atleta.id b) other) (atletas db));
    reflexivity.
Qed.

Lemma delete_atleta_then_get_atleta_witness :
  (delete_atleta 1 with_ana).1 = Ok tt
  ∧ (get_atleta 1 (delete_atleta 1 with_ana).2).1
    = HTTPException 404 "Atleta não encontrado"
  ∧ (delete_atleta 1 (delete_atleta 1 with_ana).2).1
    = HTTPException 404 "Atleta não encontrado"
  ∧ ∀ other, other ≠ 1%Z →
             (get_atleta other (delete_atleta 1 with_ana).2).1
             = (get_atleta other with_ana).1.
Proof.
  apply (delete_atleta_then_get_atleta 1 with_ana (with_id 1 (new_Atleta ana))).
  - unfold unique_keys. apply (bool_decide_unpack _). vm_compute. exact I.
  - reflexivity.
Defined.

(** *** Training centres, categories and the athletes that name them *)



End WorkoutExtras.
